(** * Contoso Restaurants orchestrator: sub-agent client and routing loop

    A shallow embedding of [agents/orchestrator/main.py]: the helper
    [_call_sub_agent] that posts a question to a specialist agent and
    extracts the answer from the decoded response, the two tools built on
    it, and the LangGraph loop [llm_call] / [should_continue] /
    [tool_node].

    Conventions of the model.
    - A Python [str] is a [string]; every [ascii] stands for one character
      (code points below 256), so that slicing counts characters.
    - A decoded JSON document is a [json] value; JSON numbers are
      restricted to integers, and a [dict] is an association list read
      from the left, which keeps the insertion order that iteration and
      [str] show.
    - A Python exception is a value of [exn]; code that may raise returns
      a [pyres].
    - Calls that leave the process (credential, HTTP, chat model) are
      answered by oracles of the [World] and recorded in a trace.
    - Logging is modelled only where formatting the log line can raise. *)

From Stdlib Require Import String Ascii List ZArith Lia Bool DecimalString.
Import ListNotations.
Local Open Scope list_scope.
Local Open Scope string_scope.
Local Set Warnings "-register-all".

(** ** Python values and exceptions *)

Module Py.

Inductive json : Type :=
| JNull
| JBool (b : bool)
| JNum (n : Z)
| JStr (s : string)
| JArr (items : list json)
| JObj (fields : list (string * json)).

Inductive exn : Type :=
| HTTPStatusError (status_code : Z)
| RequestError
| TypeError
| AttributeError
| KeyError
| IndexError
| ValueError
| OtherError (name : string).

Inductive pyres (A : Type) : Type :=
| Ret (a : A)
| Raise (e : exn).

Arguments Ret {A} a.
Arguments Raise {A} e.

Definition bind {A B : Type} (c : pyres A) (k : A -> pyres B) : pyres B :=
  match c with
  | Ret a => k a
  | Raise e => Raise e
  end.

Notation "x <- c ;; k" := (bind c (fun x => k))
  (at level 61, c at next level, right associativity).

(** The exceptions that reading a decoded value can raise. *)
Definition internal (e : exn) : Prop :=
  match e with
  | TypeError | AttributeError | KeyError | IndexError => True
  | _ => False
  end.

(** *** Strings *)

Definition nl : string := String (ascii_of_nat 10) EmptyString.
Definition dquote : ascii := ascii_of_nat 34.
Definition squote : ascii := ascii_of_nat 39.
Definition backslash : ascii := ascii_of_nat 92.
Definition slash : ascii := ascii_of_nat 47.

(** [s[:n]] *)
Definition slice_to (n : nat) (s : string) : string := substring 0 n s.

(** [sep.join(parts)] *)
Definition join (sep : string) (parts : list string) : string :=
  String.concat sep parts.

(** [needle in hay] on two strings *)
Fixpoint contains (needle hay : string) : bool :=
  prefix needle hay ||
  match hay with
  | EmptyString => false
  | String _ rest => contains needle rest
  end.

(** [text] holds [part] somewhere. *)
Definition mentions (text part : string) : Prop :=
  exists before after, text = before ++ part ++ after.

(** [s.rstrip('/')]: every trailing slash is dropped. *)
Fixpoint rstrip_slash (s : string) : string :=
  match s with
  | EmptyString => EmptyString
  | String c rest =>
      match rstrip_slash rest with
      | EmptyString => if Ascii.eqb c slash then EmptyString
                       else String c EmptyString
      | kept => String c kept
      end
  end.


(** [str(n)] for an integer *)
Definition dec (n : Z) : string := NilZero.string_of_int (Z.to_int n).

(** *** [repr] and [str] *)

Definition hex_digit (n : nat) : ascii :=
  nth n ["0"; "1"; "2"; "3"; "4"; "5"; "6"; "7";
         "8"; "9"; "a"; "b"; "c"; "d"; "e"; "f"]%char "0"%char.

(** Characters that [repr] writes as an escape: the controls, DEL, and in
    the upper half the C1 controls, the no-break space and the soft
    hyphen. *)
Definition needs_hex (n : nat) : bool :=
  ((n <? 32) || (n =? 127) || ((128 <=? n) && (n <=? 160)) || (n =? 173))%nat.

Definition repr_char (quote c : ascii) : string :=
  let n := nat_of_ascii c in
  if Ascii.eqb c quote || Ascii.eqb c backslash
  then String backslash (String c EmptyString)
  else if (n =? 9)%nat then String backslash "t"
  else if (n =? 10)%nat then String backslash "n"
  else if (n =? 13)%nat then String backslash "r"
  else if needs_hex n
  then String backslash
         (String "x" (String (hex_digit (n / 16)%nat)
                        (String (hex_digit (n mod 16)%nat) EmptyString)))
  else String c EmptyString.

Fixpoint has_char (c : ascii) (s : string) : bool :=
  match s with
  | EmptyString => false
  | String d rest => Ascii.eqb c d || has_char c rest
  end.

Fixpoint repr_chars (quote : ascii) (s : string) : string :=
  match s with
  | EmptyString => EmptyString
  | String c rest => repr_char quote c ++ repr_chars quote rest
  end.

(** [repr(s)]: single quotes, unless the text holds a single quote and no
    double quote. *)
Definition repr_str (s : string) : string :=
  let quote := if has_char squote s && negb (has_char dquote s)
               then dquote else squote in
  String quote (repr_chars quote s ++ String quote EmptyString).

Fixpoint py_repr (v : json) : string :=
  match v with
  | JNull => "None"
  | JBool true => "True"
  | JBool false => "False"
  | JNum n => dec n
  | JStr s => repr_str s
  | JArr items => "[" ++ join ", " (map py_repr items) ++ "]"
  | JObj fields =>
      "{" ++ join ", "
               (map (fun kv => let '(k, x) := kv in
                               repr_str k ++ ": " ++ py_repr x) fields)
          ++ "}"
  end.

(** [str(v)] *)
Definition py_str (v : json) : string :=
  match v with
  | JStr s => s
  | _ => py_repr v
  end.

(** *** Truth value, membership, subscripts *)

(** [bool(v)] *)
Definition truthy (v : json) : bool :=
  match v with
  | JNull => false
  | JBool b => b
  | JNum n => negb (n =? 0)%Z
  | JStr s => negb (s =? "")
  | JArr items => match items with [] => false | _ => true end
  | JObj fields => match fields with [] => false | _ => true end
  end.

Fixpoint lookup (k : string) (fields : list (string * json)) : option json :=
  match fields with
  | [] => None
  | (k', x) :: rest => if k =? k' then Some x else lookup k rest
  end.

Definition is_str (k : string) (v : json) : bool :=
  match v with
  | JStr s => s =? k
  | _ => false
  end.

(** [k in v] for a string [k]: key of a dict, element of a list,
    substring of a string; the other values are not containers. *)
Definition py_in (k : string) (v : json) : pyres bool :=
  match v with
  | JObj fields => Ret (match lookup k fields with Some _ => true | None => false end)
  | JArr items => Ret (existsb (is_str k) items)
  | JStr s => Ret (contains k s)
  | _ => Raise TypeError
  end.

(** [v[k]] for a string [k] *)
Definition getitem (k : string) (v : json) : pyres json :=
  match v with
  | JObj fields =>
      match lookup k fields with
      | Some x => Ret x
      | None => Raise KeyError
      end
  | _ => Raise TypeError
  end.

(** [v[0]]: a dict decoded from JSON has string keys only. *)
Definition getitem0 (v : json) : pyres json :=
  match v with
  | JArr (x :: _) => Ret x
  | JArr [] => Raise IndexError
  | JStr (String c _) => Ret (JStr (String c EmptyString))
  | JStr EmptyString => Raise IndexError
  | JObj _ => Raise KeyError
  | _ => Raise TypeError
  end.

(** [v.get(k, default)]: only a dict has the method. *)
Definition dict_get (k : string) (default : json) (v : json) : pyres json :=
  match v with
  | JObj fields =>
      Ret (match lookup k fields with Some x => x | None => default end)
  | _ => Raise AttributeError
  end.

Fixpoint chars (s : string) : list json :=
  match s with
  | EmptyString => []
  | String c rest => JStr (String c EmptyString) :: chars rest
  end.

(** The values a [for] loop over [v] visits. *)
Definition iterate (v : json) : pyres (list json) :=
  match v with
  | JArr items => Ret items
  | JStr s => Ret (chars s)
  | JObj fields => Ret (map (fun kv => JStr (fst kv)) fields)
  | _ => Raise TypeError
  end.

(** Formatting [f"{v[:200]}"] in a log line: strings and lists can be
    sliced; a dict (unhashable slice, a missing key from Python 3.12 on)
    and the scalars raise. *)
Definition log_slice (v : json) : pyres unit :=
  match v with
  | JStr _ | JArr _ => Ret tt
  | _ => Raise TypeError
  end.

(** ["\n".join(texts)]: every element must be a string. *)
Fixpoint as_strings (texts : list json) : pyres (list string) :=
  match texts with
  | [] => Ret []
  | JStr s :: rest => ss <- as_strings rest ;; Ret (s :: ss)
  | _ :: _ => Raise TypeError
  end.

Definition join_nl (texts : list json) : pyres string :=
  ss <- as_strings texts ;; Ret (join nl ss).

End Py.

(** ** The sub-agent client *)

Module SubAgent.
Import Py.

(** The arguments of [client.post(url, json=payload, headers=headers)] on
    an [httpx.Client(timeout=120.0)]. *)
Record request : Type := {
  url : string;
  payload : json;
  headers : list (string * string);
  timeout : Z
}.

(** What the client looks at in the response: [status_code], and the
    outcome of [response.json()], which raises on a body that is not
    JSON. *)
Record response : Type := {
  status_code : Z;
  json_body : pyres json
}.

(** Calls that leave the process, in the order they are made. *)
Inductive event : Type :=
| GetToken (scope : string)
| Post (req : request).

Definition trace : Type := list event.

(** The process environment read at import time, and the two remote
    parties.  [get_token] and [post] see the calls made so far, so that
    an oracle may answer each call differently; either may raise. *)
Record World : Type := {
  FOUNDRY_PROJECT_ENDPOINT : string;
  OPS_AGENT_NAME : string;
  OPS_AGENT_VERSION : string;
  MENU_AGENT_NAME : string;
  MENU_AGENT_VERSION : string;
  get_token : trace -> string -> pyres string;
  post : trace -> request -> pyres response
}.

(** A computation that makes remote calls: the trace is threaded through,
    and kept when the computation raises. *)
Definition io (A : Type) : Type := trace -> pyres A * trace.

Definition token_scope : string := "https://ai.azure.com/.default".

Definition not_configured (agent_name : string) : string :=
  "Error: FOUNDRY_PROJECT_ENDPOINT is not configured. Cannot reach "
  ++ agent_name ++ ".".

Definition request_url (endpoint : string) : string :=
  rstrip_slash endpoint ++ "/openai/responses?api-version=2025-11-15-preview".

Definition request_headers (token : string) : list (string * string) :=
  [("Authorization", "Bearer " ++ token);
   ("Content-Type", "application/json")].

Definition request_payload (question agent_name agent_version : string) : json :=
  JObj [("input", JArr [JObj [("role", JStr "user");
                              ("content", JStr question)]]);
        ("agent", JObj [("type", JStr "agent_reference");
                        ("name", JStr agent_name);
                        ("version", JStr agent_version)]);
        ("stream", JBool false)].

(** [response.raise_for_status()] lets the 2xx codes through. *)
Definition is_success (code : Z) : bool :=
  ((200 <=? code) && (code <=? 299))%Z.

(** *** Reading the decoded response

    Each format returns [Some] value when it applies, [None] when the
    code goes on to the next one, and raises where the Python does. *)

(** Format 1: [if "output_text" in data and data["output_text"]] *)
Definition format1 (data : json) : pyres (option json) :=
  present <- py_in "output_text" data ;;
  if present : bool then
    result <- getitem "output_text" data ;;
    if truthy result
    then _ <- log_slice result ;; Ret (Some result)
    else Ret None
  else Ret None.

(** The fragment one content block adds to [texts], if any. *)
Definition block_text (content_block : json) : option json :=
  match content_block with
  | JObj fields => lookup "text" fields
  | JStr s => Some (JStr s)
  | _ => None
  end.

Fixpoint collect_texts (blocks : list json) : list json :=
  match blocks with
  | [] => []
  | b :: rest =>
      match block_text b with
      | Some t => t :: collect_texts rest
      | None => collect_texts rest
      end
  end.

(** The loop [for item in data["output"]]: the first message item whose
    blocks give a non-empty [texts] ends the loop and the function. *)
Fixpoint scan_output (items : list json) : pyres (option json) :=
  match items with
  | [] => Ret None
  | item :: rest =>
      ty <- dict_get "type" JNull item ;;
      is_message <- (if is_str "message" ty
                     then py_in "content" item else Ret false) ;;
      if is_message : bool then
        content <- getitem "content" item ;;
        blocks <- iterate content ;;
        match collect_texts blocks with
        | [] => scan_output rest
        | texts => result <- join_nl texts ;; Ret (Some (JStr result))
        end
      else scan_output rest
  end.

(** Format 2: [if "output" in data and isinstance(data["output"], list)] *)
Definition format2 (data : json) : pyres (option json) :=
  present <- py_in "output" data ;;
  if present : bool then
    output <- getitem "output" data ;;
    match output with
    | JArr items => scan_output items
    | _ => Ret None
    end
  else Ret None.

(** Format 3: [if "choices" in data and data["choices"]] *)
Definition format3 (data : json) : pyres (option json) :=
  present <- py_in "choices" data ;;
  if present : bool then
    choices <- getitem "choices" data ;;
    if truthy choices then
      first <- getitem0 choices ;;
      message <- dict_get "message" (JObj []) first ;;
      content <- dict_get "content" (JStr "") message ;;
      if truthy content
      then _ <- log_slice content ;; Ret (Some content)
      else Ret None
    else Ret None
  else Ret None.

Definition unparsable (agent_name : string) (data : json) : string :=
  "Received a response from " ++ agent_name
  ++ " but could not parse it. Raw: " ++ slice_to 300 (py_str data).

(** What the code does once format 1 has not returned. *)
Definition parse_from_output (agent_name : string) (data : json)
  : pyres json :=
  r2 <- format2 data ;;
  match r2 with
  | Some result => Ret result
  | None =>
      r3 <- format3 data ;;
      match r3 with
      | Some content => Ret content
      | None => Ret (JStr (unparsable agent_name data))
      end
  end.

Definition parse_response (agent_name : string) (data : json) : pyres json :=
  r1 <- format1 data ;;
  match r1 with
  | Some result => Ret result
  | None => parse_from_output agent_name data
  end.

(** *** The three [except] clauses *)

Definition status_text (agent_name : string) (code : Z) : string :=
  "Sorry, I couldn't reach the " ++ agent_name ++ ". It returned HTTP "
  ++ dec code ++ ". Please try again.".

Definition connect_text (agent_name : string) : string :=
  "Sorry, I couldn't connect to the " ++ agent_name
  ++ ". Please try again later.".

Definition unexpected_text (agent_name : string) : string :=
  "Sorry, an unexpected error occurred while contacting the "
  ++ agent_name ++ ". Please try again.".

Definition handle (agent_name : string) (e : exn) : json :=
  match e with
  | HTTPStatusError code => JStr (status_text agent_name code)
  | RequestError => JStr (connect_text agent_name)
  | _ => JStr (unexpected_text agent_name)
  end.

Section Client.

Variable w : World.

(** The request the client sends once it holds [token]. *)
Definition request_of (question agent_name agent_version token : string)
  : request :=
  {| url := request_url (FOUNDRY_PROJECT_ENDPOINT w);
     payload := request_payload question agent_name agent_version;
     headers := request_headers token;
     timeout := 120 |}.

(** The body of the [try]: post, [raise_for_status], decode, parse. *)
Definition try_body (agent_name : string) (req : request) (tr : trace)
  : pyres json :=
  resp <- post w tr req ;;
  if is_success (status_code resp)
  then data <- json_body resp ;; parse_response agent_name data
  else Raise (HTTPStatusError (status_code resp)).

Definition _call_sub_agent (question agent_name agent_version : string)
  : io json :=
  fun tr =>
    if FOUNDRY_PROJECT_ENDPOINT w =? ""
    then (Ret (JStr (not_configured agent_name)), tr)
    else
      let tr1 := (tr ++ [GetToken token_scope])%list in
      match get_token w tr token_scope with
      | Raise e => (Raise e, tr1)
      | Ret token =>
          let req := request_of question agent_name agent_version token in
          let tr2 := (tr1 ++ [Post req])%list in
          match try_body agent_name req tr1 with
          | Ret result => (Ret result, tr2)
          | Raise e => (Ret (handle agent_name e), tr2)
          end
      end.

(** *** The two tools *)

Definition tool_body (agent_name agent_version question : string) : io json :=
  fun tr =>
    match _call_sub_agent question agent_name agent_version tr with
    | (Ret result, tr') => (_ <- log_slice result ;; Ret result, tr')
    | (Raise e, tr') => (Raise e, tr')
    end.

Definition query_ops_agent (question : string) : io json :=
  tool_body (OPS_AGENT_NAME w) (OPS_AGENT_VERSION w) question.

Definition query_menu_agent (question : string) : io json :=
  tool_body (MENU_AGENT_NAME w) (MENU_AGENT_VERSION w) question.

(** The invocation that starts on trace [tr] gets as far as a decoded
    payload: the endpoint is configured, a token is acquired, the post
    returns a 2xx response and its body decodes to [data]. *)
Definition decodes (question agent_name agent_version : string) (tr : trace)
  (data : json) : Prop :=
  FOUNDRY_PROJECT_ENDPOINT w <> ""
  /\ exists token resp,
       get_token w tr token_scope = Ret token
       /\ post w (tr ++ [GetToken token_scope])%list
               (request_of question agent_name agent_version token) = Ret resp
       /\ is_success (status_code resp) = true
       /\ json_body resp = Ret data.

End Client.

(** *** Reading a trace *)

Definition is_token_event (ev : event) : bool :=
  match ev with
  | GetToken _ => true
  | Post _ => false
  end.

(** How many bearer tokens were acquired. *)
Definition token_acquisitions (tr : trace) : nat :=
  length (filter is_token_event tr).

(** The requests that were posted, oldest first. *)
Fixpoint posted (tr : trace) : list request :=
  match tr with
  | [] => []
  | Post req :: rest => req :: posted rest
  | GetToken _ :: rest => posted rest
  end.

(** The question a request body carries: the content of its only input,
    when that input has the user role. *)
Definition user_question (body : json) : option string :=
  match body with
  | JObj fields =>
      match lookup "input" fields with
      | Some (JArr [JObj [("role", JStr "user"); ("content", JStr q)]]) => Some q
      | _ => None
      end
  | _ => None
  end.

End SubAgent.

(** ** The routing graph *)

Module Router.
Import Py SubAgent.

(** The dashes of the prompt lie outside the one-byte alphabet and appear
    as their UTF-8 bytes; the prompt is only handed to the chat model. *)
Definition SYSTEM_PROMPT : string := "You are the **Contoso Restaurants Orchestrator Agent** — the central routing intelligence for a multi-agent system serving Contoso Burger, Contoso Tacos, and Contoso Pizza restaurant operations.

**Your role**
You receive user messages and determine which specialized agent should handle them. You have two tools available:
- `query_ops_agent` — for operational questions (store performance, KPIs, sales, labor, food safety, etc.)
- `query_menu_agent` — for creative/marketing questions (menu innovation, campaigns, promotions, brand strategy, etc.)

**How to behave**
1. Analyze the user's message to understand intent.
2. Call the appropriate tool with the user's question (pass the full question, don't summarize).
3. Return the tool's response directly to the user — do NOT add your own commentary or re-summarize.
4. If the message is ambiguous or spans both domains, pick the most relevant agent. If truly equal, prefer the Ops Agent.
5. For greetings or general questions not related to either domain, respond directly with a brief, friendly message explaining what you can help with.

**CRITICAL RULES**
- ALWAYS use a tool for domain-specific questions. Never make up operational data or marketing concepts yourself.
- Pass the user's EXACT question to the tool. Do not rephrase or summarize.
- Return the tool's response AS-IS. Do not wrap it in additional commentary.
- If a tool returns an error, apologize briefly and suggest the user try again.".

(** A tool call requested by the chat model.  [tc_args] is the value of
    the single field [question] of [tool_call["args"]], the only argument
    the schema of the two tools admits. *)
Record tool_call : Type := {
  tc_name : string;
  tc_args : string;
  tc_id : string
}.

Inductive message : Type :=
| SystemMessage (content : string)
| HumanMessage (content : string)
| AIMessage (content : string) (tool_calls : list tool_call)
| ToolMessage (content : string) (tool_call_id : string).

(** [MessagesState]: the value of the key [messages]. *)
Definition state : Type := list message.

Inductive route : Type :=
| tools
| END.

(** How an invocation of the compiled graph ends: [END] was reached, a
    node raised, or the step budget of the run was used up. *)
Inductive run : Type :=
| Finished (final : state)
| Failed (e : exn)
| OutOfSteps.

Definition message_content (m : message) : string :=
  match m with
  | SystemMessage c | HumanMessage c | AIMessage c _ | ToolMessage c _ => c
  end.

(** [state["messages"][-1]] *)
Definition last_message (st : state) : pyres message :=
  match rev st with
  | [] => Raise IndexError
  | m :: _ => Ret m
  end.

(** [.tool_calls], an attribute of assistant messages only. *)
Definition tool_calls_of (m : message) : pyres (list tool_call) :=
  match m with
  | AIMessage _ tcs => Ret tcs
  | _ => Raise AttributeError
  end.

(** The text shown to the user: the content of the last message. *)
Definition final_answer (st : state) : option string :=
  match rev st with
  | [] => None
  | m :: _ => Some (message_content m)
  end.

(** The id a tool message answers. *)
Definition tool_result_id (m : message) : option string :=
  match m with
  | ToolMessage _ id => Some id
  | _ => None
  end.

(** The names of the two tools bound to the chat model. *)
Definition registered (tc : tool_call) : Prop :=
  tc_name tc = "query_ops_agent" \/ tc_name tc = "query_menu_agent".

Section Graph.

Variable w : World.

(** [get_llm_with_tools().invoke(messages)]: the reply of the chat model,
    its text and the tool calls it requests. *)
Variable llm : list message -> pyres (string * list tool_call).

Definition _tools : list (string * (string -> io json)) :=
  [("query_ops_agent", query_ops_agent w);
   ("query_menu_agent", query_menu_agent w)].

Fixpoint _tools_by_name_in (registry : list (string * (string -> io json)))
  (name : string) : pyres (string -> io json) :=
  match registry with
  | [] => Raise KeyError
  | (n, t) :: rest => if name =? n then Ret t else _tools_by_name_in rest name
  end.

Definition _tools_by_name : string -> pyres (string -> io json) :=
  _tools_by_name_in _tools.

Definition llm_call (st : state) : pyres (list message) :=
  reply <- llm (SystemMessage SYSTEM_PROMPT :: st) ;;
  Ret [AIMessage (fst reply) (snd reply)].

(** The loop of [tool_node]; [result] is the list built so far. *)
Fixpoint run_tool_calls (calls : list tool_call) (result : list message)
  : io (list message) :=
  fun tr =>
    match calls with
    | [] => (Ret result, tr)
    | tool_call :: rest =>
        match _tools_by_name (tc_name tool_call) with
        | Raise e => (Raise e, tr)
        | Ret t =>
            match t (tc_args tool_call) tr with
            | (Raise e, tr') => (Raise e, tr')
            | (Ret observation, tr') =>
                run_tool_calls rest
                  (result ++ [ToolMessage (py_str observation)
                                          (tc_id tool_call)])%list
                  tr'
            end
        end
    end.

Definition tool_node (st : state) : io (list message) :=
  fun tr =>
    match (m <- last_message st ;; tool_calls_of m) with
    | Raise e => (Raise e, tr)
    | Ret calls => run_tool_calls calls [] tr
    end.

Definition should_continue (st : state) : pyres route :=
  last <- last_message st ;;
  calls <- tool_calls_of last ;;
  Ret (match calls with [] => END | _ => tools end).

(** The compiled graph: START, [llm_call], then [tools] and back while
    [should_continue] says so.  Every node appends its messages to the
    state.  One unit of [fuel] pays for one round. *)
Fixpoint run_graph (fuel : nat) (st : state) (tr : trace) : run * trace :=
  match fuel with
  | O => (OutOfSteps, tr)
  | S fuel' =>
      match llm_call st with
      | Raise e => (Failed e, tr)
      | Ret new =>
          let st1 := (st ++ new)%list in
          match should_continue st1 with
          | Raise e => (Failed e, tr)
          | Ret END => (Finished st1, tr)
          | Ret tools =>
              match tool_node st1 tr with
              | (Raise e, tr') => (Failed e, tr')
              | (Ret results, tr') =>
                  run_graph fuel' (st1 ++ results)%list tr'
              end
          end
      end
  end.

End Graph.

Definition is_tool_message (m : message) : bool :=
  match m with
  | ToolMessage _ _ => true
  | _ => false
  end.

(** The messages a finished run adds to the state: rounds made of an
    assistant message that requests tool calls and one tool message per
    call, in the order of the calls, closed by an assistant message that
    requests none. *)
Inductive rounds : list message -> Prop :=
| rounds_answer (answer : string) :
    rounds [AIMessage answer []]
| rounds_tools (content : string) (calls : list tool_call)
               (results rest : list message) :
    calls <> [] ->
    map tool_result_id results = map (fun tc => Some (tc_id tc)) calls ->
    rounds rest ->
    rounds (AIMessage content calls :: results ++ rest)%list.

End Router.

(** ** The documented response shapes

    The three shapes as the design document words them, on a decoded
    object: a plain output text, an output array of message items with
    content blocks, a choices array.  These definitions do not follow the
    code; the theorems below compare [parse_response] with them. *)

Module Documented.
Import Py SubAgent.

Definition nonempty_text (v : option json) : option string :=
  match v with
  | Some (JStr s) => if s =? "" then None else Some s
  | _ => None
  end.

(** Shape 1: the top-level output text. *)
Definition shape_output_text (fields : list (string * json)) : option string :=
  nonempty_text (lookup "output_text" fields).

(** A content block is an object carrying a text field, or a raw string. *)
Definition block_fragment (block : json) : option string :=
  match block with
  | JObj f => match lookup "text" f with Some (JStr t) => Some t | _ => None end
  | JStr t => Some t
  | _ => None
  end.

Fixpoint fragments (blocks : list json) : list string :=
  match blocks with
  | [] => []
  | b :: rest =>
      match block_fragment b with
      | Some t => t :: fragments rest
      | None => fragments rest
      end
  end.

(** The fragments of one item of the output array: those of its content
    blocks when it is a message item, none otherwise. *)
Definition item_fragments (item : json) : list string :=
  match item with
  | JObj f =>
      match lookup "type" f, lookup "content" f with
      | Some (JStr ty), Some (JArr blocks) =>
          if ty =? "message" then fragments blocks else []
      | _, _ => []
      end
  | _ => []
  end.

(** Every fragment of the output array, in array order. *)
Definition all_fragments (items : list json) : list string :=
  concat (map item_fragments items).

(** The fragments of the first item that has any. *)
Fixpoint first_fragments (items : list json) : option (list string) :=
  match items with
  | [] => None
  | item :: rest =>
      match item_fragments item with
      | [] => first_fragments rest
      | fs => Some fs
      end
  end.

(** Shape 2: the output array. *)
Definition shape_output (fields : list (string * json)) : option string :=
  match lookup "output" fields with
  | Some (JArr items) => option_map (join nl) (first_fragments items)
  | _ => None
  end.

(** Shape 3: the message content of the first choice. *)
Definition shape_choices (fields : list (string * json)) : option string :=
  match lookup "choices" fields with
  | Some (JArr (JObj choice :: _)) =>
      match lookup "message" choice with
      | Some (JObj m) => nonempty_text (lookup "content" m)
      | _ => None
      end
  | _ => None
  end.

(** The text of the first shape that matches, the marked diagnostic
    otherwise. *)
Definition extract (agent_name : string) (fields : list (string * json))
  : string :=
  match shape_output_text fields with
  | Some t => t
  | None =>
      match shape_output fields with
      | Some t => t
      | None =>
          match shape_choices fields with
          | Some t => t
          | None => unparsable agent_name (JObj fields)
          end
      end
  end.

(** *** Payloads whose fields have the documented types *)

Definition text_or_null (v : option json) : bool :=
  match v with
  | None | Some (JStr _) | Some JNull => true
  | _ => false
  end.

Definition typed_block (block : json) : bool :=
  match block with
  | JObj f => match lookup "text" f with
              | None | Some (JStr _) => true
              | _ => false
              end
  | _ => true
  end.

(** An item is an object; when it is a message item with content, the
    content is an array of typed blocks. *)
Definition typed_item (item : json) : bool :=
  match item with
  | JObj f =>
      match lookup "type" f, lookup "content" f with
      | Some (JStr ty), Some c =>
          if ty =? "message"
          then match c with
               | JArr blocks => forallb typed_block blocks
               | _ => false
               end
          else true
      | _, _ => true
      end
  | _ => false
  end.

Definition typed_output (fields : list (string * json)) : bool :=
  match lookup "output" fields with
  | Some (JArr items) => forallb typed_item items
  | _ => true
  end.

(** A non-empty choices value is an array whose first choice is an
    object; its message, when present, is an object whose content is a
    text or null. *)
Definition typed_choices (fields : list (string * json)) : bool :=
  match lookup "choices" fields with
  | None => true
  | Some ch =>
      if truthy ch then
        match ch with
        | JArr (JObj choice :: _) =>
            match lookup "message" choice with
            | None => true
            | Some (JObj m) => text_or_null (lookup "content" m)
            | _ => false
            end
        | _ => false
        end
      else true
  end.

(** No output text to return: the key is absent or its value is empty. *)
Definition no_output_text (fields : list (string * json)) : bool :=
  match lookup "output_text" fields with
  | None => true
  | Some v => negb (truthy v)
  end.

Definition well_typed (fields : list (string * json)) : bool :=
  text_or_null (lookup "output_text" fields)
  && typed_output fields && typed_choices fields.

(** An array made of message items only, as the documented shape 2 has
    it: each item an object of type message whose content is an array of
    blocks, each block an object with a text or a raw string. *)
Definition plain_block (block : json) : bool :=
  match block with
  | JObj f => match lookup "text" f with Some (JStr _) => true | _ => false end
  | JStr _ => true
  | _ => false
  end.

Definition message_item (item : json) : bool :=
  match item with
  | JObj f =>
      match lookup "type" f, lookup "content" f with
      | Some (JStr ty), Some (JArr blocks) =>
          (ty =? "message") && forallb plain_block blocks
      | _, _ => false
      end
  | _ => false
  end.

End Documented.

(** ** Concrete worlds *)

Module Demo.
Import Py SubAgent Router.

(** A project whose credential always yields a token and whose endpoint
    answers every request with [status] and the decoded body [data]. *)
Definition world (endpoint : string) (status : Z) (data : json) : World :=
  {| FOUNDRY_PROJECT_ENDPOINT := endpoint;
     OPS_AGENT_NAME := "ContosoOpsAgent";
     OPS_AGENT_VERSION := "1";
     MENU_AGENT_NAME := "ContosoMenuAgent";
     MENU_AGENT_VERSION := "1";
     get_token := fun _ _ => Ret "t0";
     post := fun _ _ => Ret {| status_code := status; json_body := Ret data |} |}.


(** A project on which no credential is available: [get_token] raises. *)
Definition no_credential : World :=
  {| FOUNDRY_PROJECT_ENDPOINT := "https://contoso.example/api/projects/p";
     OPS_AGENT_NAME := "ContosoOpsAgent";
     OPS_AGENT_VERSION := "1";
     MENU_AGENT_NAME := "ContosoMenuAgent";
     MENU_AGENT_VERSION := "1";
     get_token := fun _ _ => Raise (OtherError "ClientAuthenticationError");
     post := fun _ _ => Raise RequestError |}.

Definition endpoint : string := "https://contoso.example/api/projects/p".

(** A message item of the output array with the given text blocks. *)
Definition message_of (texts : list string) : json :=
  JObj [("type", JStr "message");
        ("content", JArr (map (fun t => JObj [("type", JStr "output_text");
                                              ("text", JStr t)]) texts))].

(** Sample payloads. *)
Definition two_messages : list (string * json) :=
  [("output", JArr [message_of ["Sales rose 4%."];
                    message_of ["Labor cost is flat."]])].

Definition one_message : list (string * json) :=
  [("output_text", JStr "");
   ("output", JArr [message_of ["Sales rose 4%."; "Labor cost is flat."]])].

Definition number_item : list (string * json) :=
  [("output", JArr [JNum 5])].

Definition chat_completion : list (string * json) :=
  [("choices", JArr [JObj [("message", JObj [("role", JStr "assistant");
                                             ("content", JStr "Try the new taco.")])]])].

Definition has_tool_result (m : message) : bool :=
  match m with
  | ToolMessage _ _ => true
  | _ => false
  end.

(** A chat model that delegates the user's question once and, when the
    tool result is in, answers with a sentence of its own. *)
Definition commenting_llm (messages : list message)
  : pyres (string * list tool_call) :=
  if existsb has_tool_result messages
  then Ret ("Here is what the Ops Agent reports.", [])
  else Ret ("", [{| tc_name := "query_ops_agent";
                    tc_args := "How are Southwest stores performing?";
                    tc_id := "call_1" |}]).

(** A chat model that asks for both specialists in one reply, then
    answers. *)
Definition parallel_llm (messages : list message)
  : pyres (string * list tool_call) :=
  if existsb has_tool_result messages
  then Ret ("Done.", [])
  else Ret ("", [{| tc_name := "query_ops_agent";
                    tc_args := "Sales and a new burger?";
                    tc_id := "call_1" |};
                 {| tc_name := "query_menu_agent";
                    tc_args := "Sales and a new burger?";
                    tc_id := "call_2" |}]).

End Demo.

(** ** The process environment and start-up configuration *)

Module Environ.

(** [os.environ], and any [dict] from strings to strings: the entries in
    insertion order, keys without repetition. *)
Definition environ : Type := list (string * string).

(** [env.get(k)] *)
Fixpoint get (env : environ) (k : string) : option string :=
  match env with
  | [] => None
  | (k', v) :: rest => if k =? k' then Some v else get rest k
  end.

(** [env.get(k, default)] *)
Definition get_default (env : environ) (k default : string) : string :=
  match get env k with
  | Some v => v
  | None => default
  end.

(** [bool(v)] for a value that is a string or [None] *)
Definition is_set (v : option string) : bool :=
  match v with
  | Some (String _ _) => true
  | _ => false
  end.

(** [a or b] *)
Definition py_or (a b : option string) : option string :=
  if is_set a then a else b.

(** [d[k] = v]: the value is replaced where the key stands, a new key
    goes to the end. *)
Fixpoint set (d : environ) (k v : string) : environ :=
  match d with
  | [] => [(k, v)]
  | (k', v') :: rest =>
      if k =? k' then (k', v) :: rest else (k', v') :: set rest k v
  end.

(** [d.update(other)] *)
Definition update (d other : environ) : environ :=
  fold_left (fun acc kv => set acc (fst kv) (snd kv)) other d.

End Environ.

(** The module-level configuration of the orchestrator. *)
Module Startup.
Import Py Environ.

Record settings : Type := {
  AZURE_OPENAI_ENDPOINT : string;
  MODEL_DEPLOYMENT : string;
  API_VERSION : string;
  FOUNDRY_PROJECT_ENDPOINT : string;
  OPS_AGENT_NAME : string;
  OPS_AGENT_VERSION : string;
  MENU_AGENT_NAME : string;
  MENU_AGENT_VERSION : string
}.

(** Importing the module: [ValueError] when neither endpoint variable
    holds a non-empty value. *)
Definition load (env : environ) : pyres settings :=
  match py_or (get env "AZURE_OPENAI_ENDPOINT") (get env "AZURE_AI_ENDPOINT") with
  | Some (String c s) =>
      Ret {| AZURE_OPENAI_ENDPOINT := String c s;
             MODEL_DEPLOYMENT :=
               get_default env "AZURE_AI_MODEL_DEPLOYMENT_NAME" "gpt-4o-mini";
             API_VERSION := get_default env "OPENAI_API_VERSION" "2025-03-01-preview";
             FOUNDRY_PROJECT_ENDPOINT := get_default env "FOUNDRY_PROJECT_ENDPOINT" "";
             OPS_AGENT_NAME := get_default env "OPS_AGENT_NAME" "ContosoOpsAgent";
             OPS_AGENT_VERSION := get_default env "OPS_AGENT_VERSION" "1";
             MENU_AGENT_NAME := get_default env "MENU_AGENT_NAME" "ContosoMenuAgent";
             MENU_AGENT_VERSION := get_default env "MENU_AGENT_VERSION" "1" |}
  | _ => Raise ValueError
  end.

(** The world the client runs in once the module is imported. *)
Definition world (s : settings)
  (get_token : SubAgent.trace -> string -> pyres string)
  (post : SubAgent.trace -> SubAgent.request -> pyres SubAgent.response)
  : SubAgent.World :=
  {| SubAgent.FOUNDRY_PROJECT_ENDPOINT := FOUNDRY_PROJECT_ENDPOINT s;
     SubAgent.OPS_AGENT_NAME := OPS_AGENT_NAME s;
     SubAgent.OPS_AGENT_VERSION := OPS_AGENT_VERSION s;
     SubAgent.MENU_AGENT_NAME := MENU_AGENT_NAME s;
     SubAgent.MENU_AGENT_VERSION := MENU_AGENT_VERSION s;
     SubAgent.get_token := get_token;
     SubAgent.post := post |}.

End Startup.

(** ** The lazily created chat model *)

Module LazyLlm.
Import Py.

Section Cache.

(** The object [llm.bind_tools(_tools)] yields. *)
Variable LLM : Type.

(** Building the token provider, [AzureChatOpenAI] and the binding; the
    argument counts the constructions attempted so far, and the
    construction may raise. *)
Variable construct : nat -> pyres LLM.

(** The global [_llm_with_tools], and the number of constructions
    attempted. *)
Record store : Type := {
  _llm_with_tools : option LLM;
  attempts : nat
}.

Definition get_llm_with_tools (s : store) : pyres LLM * store :=
  match _llm_with_tools s with
  | Some llm => (Ret llm, s)
  | None =>
      match construct (attempts s) with
      | Ret llm => (Ret llm, {| _llm_with_tools := Some llm;
                                attempts := S (attempts s) |})
      | Raise e => (Raise e, {| _llm_with_tools := None;
                                attempts := S (attempts s) |})
      end
  end.

(** The store after [n] calls in a row. *)
Fixpoint after_calls (n : nat) (s : store) : store :=
  match n with
  | O => s
  | S k => after_calls k (snd (get_llm_with_tools s))
  end.

End Cache.

End LazyLlm.

(** ** The ops agent *)

Module OpsAgent.
Import Py Environ Router.

Definition SYSTEM_PROMPT : string :=
  "You are the Contoso Restaurants **Ops Agent** ‚Äî a fast, data-driven assistant for Contoso Burger, Contoso Tacos, and Contoso Pizza restaurant operations.

**What you cover**
Store performance ¬∑ Sales & traffic ¬∑ Labor % ¬∑ Speed of service ¬∑ Order accuracy ¬∑ Customer satisfaction ¬∑ Inventory & supply chain ¬∑ Staffing ¬∑ Regional comparisons

**How to respond**
1. Lead with a one-line **headline insight** (bold, with a relevant emoji).
2. Follow with a **bullet list** of key metrics (use bold labels).
3. End with a single **actionable recommendation**.

**FORMATTING RULES ‚Äî CRITICAL**
- NEVER use markdown headers (# ## ###). Use **bold text** on its own line instead.
- NEVER use pipe-delimited tables (| col | col |). Use bullet lists with bold labels.
- Use **bold** for emphasis, *italic* for secondary emphasis.
- Use numbered lists (1. 2. 3.) for ordered steps.
- Use bullet lists (- item) for unordered data.
- Emojis are encouraged for visual impact.
- Keep paragraphs short (2-3 sentences max).

Keep answers **under 150 words**. Operators are busy ‚Äî be specific, skip filler.

**Demo data**
Simulate realistic numbers when answering:
- Sales: $2‚Äì5M range per region, +/‚àí3‚Äì8% YoY
- Stores: #1234, #5678, #9102  
- Regions: Southwest, Northeast, Great Lakes, Southeast
- KPIs: SoS 3.2 min, OA 94.1%, CSAT 4.3/5

Always cite specific numbers ‚Äî never say "
  ++ String Py.dquote ("data unavailable."
  ++ String Py.dquote "
").

(** [AgentState]: [messages] is merged with [add_messages], the other
    key is overwritten by the value a node returns. *)
Record AgentState : Type := {
  messages : list message;
  reasoning_steps : list string
}.

Record settings : Type := {
  AZURE_OPENAI_ENDPOINT : string;
  MODEL_DEPLOYMENT : string;
  API_VERSION : string
}.

Definition load (env : environ) : pyres settings :=
  match py_or (get env "AZURE_OPENAI_ENDPOINT") (get env "AZURE_AI_ENDPOINT") with
  | Some (String c s) =>
      Ret {| AZURE_OPENAI_ENDPOINT := String c s;
             MODEL_DEPLOYMENT :=
               get_default env "AZURE_AI_MODEL_DEPLOYMENT_NAME" "gpt-4o-mini";
             API_VERSION := get_default env "OPENAI_API_VERSION" "2025-03-01-preview" |}
  | _ => Raise ValueError
  end.

(** What [create_llm()] followed by [llm.invoke(messages)] gives: the
    text of the reply, or an exception [e] of which only [str(e)] is
    used. *)
Inductive llm_outcome : Type :=
| replies (content : string)
| fails (str_e : string).

Definition step_understanding : string := "Analyzing the operational query...".
Definition step_analyzing : string := "Gathering relevant metrics and context...".
Definition step_response : string := "Preparing actionable insights...".

(** The three [if ... in content] tests, in their order. *)
Definition reasoning_of (content : string) : list string :=
  ((if contains "Understanding" content then [step_understanding] else [])
   ++ (if contains "Analyzing" content then [step_analyzing] else [])
   ++ (if contains "Response" content then [step_response] else []))%list.

Section Graph.

Variable llm : list message -> llm_outcome.

(** The update the node returns. *)
Definition reasoning_node (state : AgentState) : AgentState :=
  match llm (SystemMessage SYSTEM_PROMPT :: messages state) with
  | replies content =>
      {| messages := [AIMessage content []];
         reasoning_steps := reasoning_of content |}
  | fails str_e =>
      {| messages := [AIMessage ("Sorry, I encountered an error: " ++ str_e) []];
         reasoning_steps := ["Error occurred"] |}
  end.

Definition should_continue (state : AgentState) : route := END.

(** Applying a node's update to the state. *)
Definition apply_update (state upd : AgentState) : AgentState :=
  {| messages := (messages state ++ messages upd)%list;
     reasoning_steps := reasoning_steps upd |}.

(** The compiled graph: the entry point [reasoning], then the node that
    [should_continue] names.  [END] ends the run; the graph has no other
    node to go to. *)
Definition invoke (state : AgentState) : option AgentState :=
  let state' := apply_update state (reasoning_node state) in
  match should_continue state' with
  | END => Some state'
  | tools => None
  end.

End Graph.

End OpsAgent.

(** The module-level configuration of the menu agent. *)
Module MenuAgent.
Import Py Environ.

Record settings : Type := {
  PROJECT_ENDPOINT : string;
  MODEL_DEPLOYMENT : option string
}.

(** [MODEL_DEPLOYMENT] is [a or b] and may be empty or, by type, absent;
    the second operand carries the default. *)
Definition load (env : environ) : pyres settings :=
  match py_or (get env "AZURE_AI_PROJECT_ENDPOINT")
              (py_or (get env "PROJECT_ENDPOINT")
                     (get env "FOUNDRY_PROJECT_ENDPOINT")) with
  | Some (String c s) =>
      Ret {| PROJECT_ENDPOINT := String c s;
             MODEL_DEPLOYMENT :=
               py_or (get env "AZURE_AI_MODEL_DEPLOYMENT_NAME")
                     (Some (get_default env "MODEL_DEPLOYMENT_NAME" "gpt-4o-mini")) |}
  | _ => Raise ValueError
  end.

End MenuAgent.

(** ** The deployment script *)

Module Deploy.
Import Py Environ.

(** The variables read at the top of the script, once the check that
    follows them has passed. *)
Record globals : Type := {
  ENDPOINT : string;
  ACR : string;
  AI_ENDPOINT : string;
  MODEL_DEPLOYMENT : string
}.

(** [ImageBasedHostedAgentDefinition]: the constructor arguments, and the
    fields added afterwards by item assignment. *)
Inductive AgentProtocol : Type :=
| RESPONSES.

Record definition : Type := {
  container_protocol_versions : list (AgentProtocol * string);
  cpu : string;
  memory : string;
  image : string;
  environment_variables : environ;
  assigned : list (string * Z)
}.

(** What [create_version] returns; of it the script reads [version],
    through [str].  The object counts as true. *)
Record agent : Type := {
  version : string
}.

Inductive call : Type :=
| CreateVersion (agent_name : string) (defn : definition)
| ListAgents.

(** The Foundry project client: each method sees the calls made so far
    and may raise. *)
Record client : Type := {
  create_version : list call -> string -> definition -> pyres agent;
  list_agents : list call -> pyres unit
}.

(** How the script ends: it runs to its end, or [sys.exit(code)]. *)
Inductive status : Type :=
| completed
| exited (code : Z).

(** The check [if not ENDPOINT or not ACR or not AI_ENDPOINT]. *)
Definition start (env : environ) : option globals :=
  match get env "FOUNDRY_PROJECT_ENDPOINT", get env "FOUNDRY_ACR",
        get env "AI_ENDPOINT" with
  | Some (String a e), Some (String b r), Some (String c i) =>
      Some {| ENDPOINT := String a e;
              ACR := String b r;
              AI_ENDPOINT := String c i;
              MODEL_DEPLOYMENT := get_default env "MODEL_DEPLOYMENT" "gpt-4o-mini" |}
  | _, _, _ => None
  end.

Section Script.

Variable g : globals.
Variable c : client.

Definition base_env : environ :=
  [("AZURE_AI_PROJECT_ENDPOINT", ENDPOINT g);
   ("AZURE_AI_MODEL_DEPLOYMENT_NAME", MODEL_DEPLOYMENT g);
   ("AZURE_AI_ENDPOINT", AI_ENDPOINT g);
   ("FOUNDRY_PROJECT_ENDPOINT", ENDPOINT g)].

(** [env_vars] after [if extra_env: env_vars.update(extra_env)] *)
Definition env_vars (extra_env : option environ) : environ :=
  match extra_env with
  | Some (kv :: more) => update base_env (kv :: more)
  | _ => base_env
  end.

Definition definition_of (image : string) (extra_env : option environ)
  : definition :=
  {| container_protocol_versions := [(RESPONSES, "v1")];
     cpu := "1";
     memory := "2Gi";
     image := image;
     environment_variables := env_vars extra_env;
     assigned := [("min_replicas", 1%Z); ("max_replicas", 2%Z)] |}.

(** [None] is returned when anything in the [try] raises. *)
Definition deploy_agent (agent_name image : string)
  (extra_env : option environ) (calls : list call)
  : option agent * list call :=
  let defn := definition_of image extra_env in
  let calls' := (calls ++ [CreateVersion agent_name defn])%list in
  match create_version c calls agent_name defn with
  | Ret a => (Some a, calls')
  | Raise _ => (None, calls')
  end.

(** [str(a.version) if a else "1"] *)
Definition version_or_1 (a : option agent) : string :=
  match a with
  | Some a => version a
  | None => "1"
  end.

Definition main (calls : list call) : status * list call :=
  let '(ops, calls1) :=
    deploy_agent "ContosoOpsAgent" (ACR g ++ "/contoso-ops-agent:v1") None calls in
  let '(menu, calls2) :=
    deploy_agent "ContosoMenuAgent" (ACR g ++ "/contoso-menu-agent:v1") None
                 calls1 in
  let '(orchestrator, calls3) :=
    deploy_agent "ContosoOrchestratorAgent"
                 (ACR g ++ "/contoso-orchestrator-agent:v1")
                 (Some [("OPS_AGENT_VERSION", version_or_1 ops);
                        ("MENU_AGENT_VERSION", version_or_1 menu)])
                 calls2 in
  let calls4 :=
    match list_agents c calls3 with
    | Ret _ => (calls3 ++ [ListAgents])%list
    | Raise _ => (calls3 ++ [ListAgents])%list
    end in
  match ops, menu, orchestrator with
  | Some _, Some _, Some _ => (completed, calls4)
  | _, _, _ => (exited 1, calls4)
  end.

End Script.

(** Running the script as a program. *)
Definition script (env : environ) (c : client) : status * list call :=
  match start env with
  | None => (exited 1, [])
  | Some g => main g c []
  end.

(** The definitions a run has sent, by agent name, oldest first. *)
Fixpoint created (calls : list call) : list (string * definition) :=
  match calls with
  | [] => []
  | CreateVersion name defn :: rest => (name, defn) :: created rest
  | ListAgents :: rest => created rest
  end.

End Deploy.

(** ** More concrete worlds *)

Module Samples.
Import Py SubAgent Router.

(** A project whose endpoint cannot be reached. *)
Definition unreachable : World :=
  {| FOUNDRY_PROJECT_ENDPOINT := Demo.endpoint;
     OPS_AGENT_NAME := "ContosoOpsAgent";
     OPS_AGENT_VERSION := "1";
     MENU_AGENT_NAME := "ContosoMenuAgent";
     MENU_AGENT_VERSION := "1";
     get_token := fun _ _ => Ret "t0";
     post := fun _ _ => Raise RequestError |}.

(** A project whose endpoint answers 200 with a page that is not JSON. *)
Definition not_json : World :=
  {| FOUNDRY_PROJECT_ENDPOINT := Demo.endpoint;
     OPS_AGENT_NAME := "ContosoOpsAgent";
     OPS_AGENT_VERSION := "1";
     MENU_AGENT_NAME := "ContosoMenuAgent";
     MENU_AGENT_VERSION := "1";
     get_token := fun _ _ => Ret "t0";
     post := fun _ _ => Ret {| status_code := 200;
                               json_body := Raise ValueError |} |}.

(** A payload with a plain output text beside an output array that holds
    a number. *)
Definition text_and_number : list (string * json) :=
  [("output", JArr [JNum 5]); ("output_text", JStr "All stores are open.")].

(** A chat model that answers a greeting itself. *)
Definition greeting_llm (messages : list message)
  : pyres (string * list tool_call) :=
  Ret ("Hello! I can help with operations and menu questions.", []).

(** A chat model that asks for the ops agent whatever it is shown. *)
Definition insisting_llm (messages : list message)
  : pyres (string * list tool_call) :=
  Ret ("", [{| tc_name := "query_ops_agent";
               tc_args := "How are Southwest stores performing?";
               tc_id := "call_1" |}]).

(** The environment of a deployment run, and a client on which every
    version is created as version 7. *)
Definition deploy_env : Environ.environ :=
  [("FOUNDRY_PROJECT_ENDPOINT", "https://contoso.example/api/projects/p");
   ("FOUNDRY_ACR", "contoso.azurecr.io");
   ("AI_ENDPOINT", "https://contoso.openai.example/")].

Definition deploy_globals : Deploy.globals :=
  {| Deploy.ENDPOINT := "https://contoso.example/api/projects/p";
     Deploy.ACR := "contoso.azurecr.io";
     Deploy.AI_ENDPOINT := "https://contoso.openai.example/";
     Deploy.MODEL_DEPLOYMENT := "gpt-4o-mini" |}.

Definition obliging_client : Deploy.client :=
  {| Deploy.create_version := fun _ _ _ => Ret {| Deploy.version := "7" |};
     Deploy.list_agents := fun _ => Ret tt |}.

(** A client that refuses the ops agent and accepts the others. *)
Definition picky_client : Deploy.client :=
  {| Deploy.create_version :=
       fun _ name _ => if name =? "ContosoOpsAgent"
                       then Raise (OtherError "HttpResponseError")
                       else Ret {| Deploy.version := "3" |};
     Deploy.list_agents := fun _ => Raise (OtherError "HttpResponseError") |}.

(** An environment with the model endpoint only, and what the
    orchestrator reads from it. *)
Definition bare_env : Environ.environ :=
  [("AZURE_AI_ENDPOINT", "https://contoso.openai.example/")].

Definition bare_settings : Startup.settings :=
  {| Startup.AZURE_OPENAI_ENDPOINT := "https://contoso.openai.example/";
     Startup.MODEL_DEPLOYMENT := "gpt-4o-mini";
     Startup.API_VERSION := "2025-03-01-preview";
     Startup.FOUNDRY_PROJECT_ENDPOINT := "";
     Startup.OPS_AGENT_NAME := "ContosoOpsAgent";
     Startup.OPS_AGENT_VERSION := "1";
     Startup.MENU_AGENT_NAME := "ContosoMenuAgent";
     Startup.MENU_AGENT_VERSION := "1" |}.

(** A construction of the chat model that fails the first time and
    succeeds afterwards; the model is represented by a number. *)
Definition flaky_construct (attempt : nat) : pyres nat :=
  match attempt with
  | O => Raise (OtherError "ClientAuthenticationError")
  | S _ => Ret 42
  end.

(** A chat model of the ops agent that cannot be reached. *)
Definition failing_ops_llm (messages : list message) : OpsAgent.llm_outcome :=
  OpsAgent.fails "Connection error.".

(** A chat model of the ops agent that answers in three labelled parts. *)
Definition labelled_ops_llm (messages : list message) : OpsAgent.llm_outcome :=
  OpsAgent.replies "Understanding: sales. Analyzing: Q3. Response: up 4%.".

End Samples.

(** * Properties *)

Import Py SubAgent Router.

(** ** Strings *)

Section StringFacts.

Lemma append_nil_r (s : string) : s ++ "" = s.
Proof.
  induction s as [|c s IH]; simpl; [reflexivity | now rewrite IH].
Qed.

Lemma append_assoc (a b c : string) : (a ++ b) ++ c = a ++ (b ++ c).
Proof.
  induction a as [|x a IH]; simpl; [reflexivity | now rewrite IH].
Qed.

Lemma mentions_intro (before part after : string) :
  mentions (before ++ part ++ after) part.
Proof. exists before, after. reflexivity. Qed.






End StringFacts.

(** ** The client, step by step *)

Section ClientFacts.

Variable w : World.
Variables question agent_name agent_version : string.
Variable tr : trace.

Lemma call_unconfigured :
  FOUNDRY_PROJECT_ENDPOINT w = "" ->
  _call_sub_agent w question agent_name agent_version tr
  = (Ret (JStr (not_configured agent_name)), tr).
Proof.
  intros H. unfold _call_sub_agent. rewrite H. reflexivity.
Qed.

Lemma call_without_token (e : exn) :
  FOUNDRY_PROJECT_ENDPOINT w <> "" ->
  get_token w tr token_scope = Raise e ->
  _call_sub_agent w question agent_name agent_version tr
  = (Raise e, (tr ++ [GetToken token_scope])%list).
Proof.
  intros Hc Ht. unfold _call_sub_agent.
  apply String.eqb_neq in Hc. rewrite Hc, Ht. reflexivity.
Qed.

Lemma call_with_token (token : string) :
  FOUNDRY_PROJECT_ENDPOINT w <> "" ->
  get_token w tr token_scope = Ret token ->
  _call_sub_agent w question agent_name agent_version tr
  = (Ret match try_body w agent_name
                        (request_of w question agent_name agent_version token)
                        (tr ++ [GetToken token_scope])%list with
         | Ret result => result
         | Raise e => handle agent_name e
         end,
     ((tr ++ [GetToken token_scope])
        ++ [Post (request_of w question agent_name agent_version token)])%list).
Proof.
  intros Hc Ht. unfold _call_sub_agent.
  apply String.eqb_neq in Hc. rewrite Hc, Ht.
  destruct (try_body w agent_name _ _); reflexivity.
Qed.

End ClientFacts.

(** ** Missing endpoint *)

(** C6. With no base endpoint configured the client answers at once with
    a text that names the target agent; it does not raise, and the trace
    is left as it was: no token is acquired and no request is sent. *)
Theorem missing_endpoint_fails_fast :
  forall (w : World) (question agent_name agent_version : string) (tr : trace),
    FOUNDRY_PROJECT_ENDPOINT w = "" ->
    _call_sub_agent w question agent_name agent_version tr
    = (Ret (JStr (not_configured agent_name)), tr)
    /\ mentions (not_configured agent_name) agent_name.
Proof.
  intros w question agent_name agent_version tr H. split.
  - now apply call_unconfigured.
  - apply mentions_intro.
Qed.

Lemma missing_endpoint_fails_fast_witness :
  _call_sub_agent (Demo.world "" 200 JNull) "Which stores are open?"
                  "ContosoOpsAgent" "1" []
  = (Ret (JStr (not_configured "ContosoOpsAgent")), [])
  /\ mentions (not_configured "ContosoOpsAgent") "ContosoOpsAgent".
Proof.
  apply (missing_endpoint_fails_fast (Demo.world "" 200 JNull)).
  reflexivity.
Defined.

(** ** The request URL *)



(** ** Reading the response: which exceptions, which values *)

Section ParsingFacts.

Lemma bind_raise {A B : Type} (c : pyres A) (k : A -> pyres B) (e : exn) :
  bind c k = Raise e ->
  c = Raise e \/ exists a, c = Ret a /\ k a = Raise e.
Proof.
  destruct c as [a|e']; simpl; intros H.
  - right. now exists a.
  - left. inversion H. reflexivity.
Qed.

Lemma py_in_internal k v e : py_in k v = Raise e -> internal e.
Proof. destruct v; simpl; intros H; inversion H; exact I. Qed.

Lemma getitem_internal k v e : getitem k v = Raise e -> internal e.
Proof.
  destruct v; simpl; try (intros H; inversion H; exact I).
  destruct (lookup k fields); intros H; inversion H; exact I.
Qed.

Lemma getitem0_internal v e : getitem0 v = Raise e -> internal e.
Proof.
  destruct v as [| | |s|items|fields]; simpl;
    try (intros H; inversion H; exact I).
  - destruct s; intros H; inversion H; exact I.
  - destruct items; intros H; inversion H; exact I.
Qed.

Lemma dict_get_internal k d v e : dict_get k d v = Raise e -> internal e.
Proof. destruct v; simpl; intros H; inversion H; exact I. Qed.

Lemma iterate_internal v e : iterate v = Raise e -> internal e.
Proof. destruct v; simpl; intros H; inversion H; exact I. Qed.

Lemma log_slice_internal v e : log_slice v = Raise e -> internal e.
Proof. destruct v; simpl; intros H; inversion H; exact I. Qed.

Lemma as_strings_internal texts e : as_strings texts = Raise e -> internal e.
Proof.
  induction texts as [|t texts IH]; simpl; [discriminate|].
  destruct t; try (intros H; inversion H; exact I).
  intros H. apply bind_raise in H as [H | [ss [_ H]]].
  - now apply IH.
  - discriminate.
Qed.

Lemma join_nl_internal texts e : join_nl texts = Raise e -> internal e.
Proof.
  unfold join_nl. intros H. apply bind_raise in H as [H | [ss [_ H]]].
  - now apply as_strings_internal in H.
  - discriminate.
Qed.

Create HintDb internal.

#[local] Hint Resolve py_in_internal getitem_internal getitem0_internal
  dict_get_internal iterate_internal log_slice_internal
  join_nl_internal : internal.

(** Peels one [bind] off a hypothesis that says a computation raised; the
    value of the part that returned is named [a]. *)
Tactic Notation "raised" hyp(H) "as" ident(a) :=
  apply bind_raise in H as [H | [a [_ H]]];
  [ eauto with internal | ].

Lemma format1_internal data e : format1 data = Raise e -> internal e.
Proof.
  unfold format1. intros H. raised H as present.
  destruct present; [|discriminate]. raised H as result.
  destruct (truthy result); [|discriminate]. raised H as u. discriminate.
Qed.

Lemma scan_output_internal items e : scan_output items = Raise e -> internal e.
Proof.
  induction items as [|item items IH]; simpl; [discriminate|].
  intros H. raised H as ty. raised H as is_message.
  - destruct (is_str "message" ty); [eauto with internal | discriminate].
  - destruct is_message; [|now apply IH].
    raised H as content. raised H as blocks.
    destruct (collect_texts blocks); [now apply IH|].
    raised H as result. discriminate.
Qed.

Lemma format2_internal data e : format2 data = Raise e -> internal e.
Proof.
  unfold format2. intros H. raised H as present.
  destruct present; [|discriminate]. raised H as output.
  destruct output; try discriminate. now apply scan_output_internal in H.
Qed.

Lemma format3_internal data e : format3 data = Raise e -> internal e.
Proof.
  unfold format3. intros H. raised H as present.
  destruct present; [|discriminate]. raised H as choices.
  destruct (truthy choices); [|discriminate].
  raised H as first. raised H as message. raised H as content.
  destruct (truthy content); [|discriminate]. raised H as u. discriminate.
Qed.

Lemma parse_from_output_internal name data e :
  parse_from_output name data = Raise e -> internal e.
Proof.
  unfold parse_from_output. intros H.
  apply bind_raise in H as [H | [r2 [_ H]]];
    [now apply format2_internal in H|].
  destruct r2; [discriminate|].
  apply bind_raise in H as [H | [r3 [_ H]]];
    [now apply format3_internal in H|].
  destruct r3; discriminate.
Qed.

Lemma parse_response_internal name data e :
  parse_response name data = Raise e -> internal e.
Proof.
  unfold parse_response. intros H.
  apply bind_raise in H as [H | [r1 [_ H]]];
    [now apply format1_internal in H|].
  destruct r1; [discriminate|].
  now apply parse_from_output_internal in H.
Qed.

Lemma handle_internal name e :
  internal e -> handle name e = JStr (unexpected_text name).
Proof. destruct e; simpl; intros H; try contradiction; reflexivity. Qed.

End ParsingFacts.

(** ** The code against the documented shapes *)

Section Refinement.

Import Documented.

Lemma as_strings_texts (fs : list string) : as_strings (map JStr fs) = Ret fs.
Proof.
  induction fs as [|f fs IH]; simpl; [reflexivity|].
  rewrite IH. reflexivity.
Qed.

Lemma join_nl_texts (fs : list string) :
  join_nl (map JStr fs) = Ret (join nl fs).
Proof. unfold join_nl. rewrite as_strings_texts. reflexivity. Qed.

Lemma collect_texts_typed (blocks : list json) :
  forallb typed_block blocks = true ->
  collect_texts blocks = map JStr (fragments blocks).
Proof.
  induction blocks as [|b blocks IH]; simpl; [reflexivity|].
  intros H. apply andb_true_iff in H as [Hb Hrest].
  specialize (IH Hrest).
  destruct b as [| | |s|items|f]; simpl; try exact IH.
  - now rewrite IH.
  - simpl in Hb. destruct (lookup "text" f) as [[| | |t| |]|];
      try discriminate; simpl; now rewrite IH.
Qed.

Lemma format1_typed (fields : list (string * json)) :
  text_or_null (lookup "output_text" fields) = true ->
  format1 (JObj fields) = Ret (option_map JStr (shape_output_text fields)).
Proof.
  unfold format1, shape_output_text. simpl.
  destruct (lookup "output_text" fields) as [[| | |s| |]|];
    simpl; try discriminate; try reflexivity.
  intros _. destruct (s =? ""); reflexivity.
Qed.

Lemma scan_output_typed (items : list json) :
  forallb typed_item items = true ->
  scan_output items
  = Ret (option_map (fun fs => JStr (join nl fs)) (first_fragments items)).
Proof.
  induction items as [|item items IH]; simpl; [reflexivity|].
  intros H. apply andb_true_iff in H as [Hi Hrest].
  specialize (IH Hrest).
  destruct item as [| | |s|l|f]; try discriminate.
  simpl in *.
  destruct (lookup "type" f) as [[| | |ty| |]|]; simpl;
    try (destruct (lookup "content" f) as [[]|]; exact IH).
  destruct (ty =? "message") eqn:Hty; simpl.
  - destruct (lookup "content" f) as [c|]; simpl.
    + destruct c as [| | |s|blocks|g]; try discriminate. simpl.
      rewrite (collect_texts_typed _ Hi).
      destruct (fragments blocks) as [|t ts] eqn:Hf; simpl.
      * exact IH.
      * change (JStr t :: map JStr ts) with (map JStr (t :: ts)).
        rewrite join_nl_texts. reflexivity.
    + exact IH.
  - destruct (lookup "content" f) as [[]|]; exact IH.
Qed.

Lemma format2_typed (fields : list (string * json)) :
  typed_output fields = true ->
  format2 (JObj fields) = Ret (option_map JStr (shape_output fields)).
Proof.
  unfold format2, typed_output, shape_output. simpl.
  destruct (lookup "output" fields) as [[| | |s|items|g]|];
    simpl; try reflexivity.
  intros H. rewrite (scan_output_typed _ H).
  destruct (first_fragments items); reflexivity.
Qed.

Lemma format3_typed (fields : list (string * json)) :
  typed_choices fields = true ->
  format3 (JObj fields) = Ret (option_map JStr (shape_choices fields)).
Proof.
  unfold format3, typed_choices, shape_choices. simpl.
  destruct (lookup "choices" fields) as [ch|]; simpl; [|reflexivity].
  destruct (truthy ch) eqn:Hch.
  - destruct ch as [| | |s|[|first rest]|g]; try discriminate.
    destruct first as [| | |s|l|choice]; try discriminate. simpl.
    destruct (lookup "message" choice) as [[| | |s|l|m]|];
      try discriminate; simpl; try reflexivity.
    destruct (lookup "content" m) as [[| | |s| |]|];
      simpl; try discriminate; try reflexivity.
    intros _. destruct (s =? ""); reflexivity.
  - intros _.
    destruct ch as [| | |s|[|first rest]|g]; try discriminate; reflexivity.
Qed.

Lemma parse_response_typed (name : string) (fields : list (string * json)) :
  well_typed fields = true ->
  parse_response name (JObj fields) = Ret (JStr (extract name fields)).
Proof.
  unfold well_typed. intros H.
  apply andb_true_iff in H as [H H3]. apply andb_true_iff in H as [H1 H2].
  unfold parse_response, parse_from_output, extract.
  rewrite (format1_typed _ H1).
  destruct (shape_output_text fields); simpl; [reflexivity|].
  rewrite (format2_typed _ H2).
  destruct (shape_output fields); simpl; [reflexivity|].
  rewrite (format3_typed _ H3).
  destruct (shape_choices fields); reflexivity.
Qed.

End Refinement.

(** ** From the decoded payload to the result *)

Section Results.

Import Documented.

Variable w : World.
Variables question agent_name agent_version : string.
Variable tr : trace.

Lemma call_decodes (data : json) :
  decodes w question agent_name agent_version tr data ->
  fst (_call_sub_agent w question agent_name agent_version tr)
  = Ret match parse_response agent_name data with
        | Ret result => result
        | Raise e => handle agent_name e
        end.
Proof.
  intros [Hc [token [resp [Ht [Hp [Hs Hj]]]]]].
  rewrite (call_with_token w question agent_name agent_version tr token Hc Ht).
  simpl. unfold try_body. rewrite Hp. simpl. rewrite Hs, Hj. reflexivity.
Qed.

Lemma call_decodes_typed (fields : list (string * json)) :
  decodes w question agent_name agent_version tr (JObj fields) ->
  well_typed fields = true ->
  fst (_call_sub_agent w question agent_name agent_version tr)
  = Ret (JStr (extract agent_name fields)).
Proof.
  intros Hd Ht. rewrite (call_decodes _ Hd).
  now rewrite (parse_response_typed agent_name fields Ht).
Qed.

End Results.

Section SliceFacts.

Lemma slice_to_prefix (n : nat) (s : string) :
  exists rest, s = slice_to n s ++ rest.
Proof.
  unfold slice_to. revert s. induction n as [|n IH]; intros s.
  - exists s. destruct s; reflexivity.
  - destruct s as [|c s]; simpl.
    + exists "". reflexivity.
    + destruct (IH s) as [rest H]. exists rest. now rewrite <- H.
Qed.

Lemma slice_to_length (n : nat) (s : string) :
  String.length (slice_to n s) <= n.
Proof.
  unfold slice_to. revert s. induction n as [|n IH]; intros s.
  - destruct s; simpl; lia.
  - destruct s as [|c s]; simpl; [lia|]. specialize (IH s). lia.
Qed.

End SliceFacts.

(** ** The three shapes *)

Section Shapes.

Import Documented.

Lemma demo_decodes (e : string) (status : Z) (data : json)
  (question agent_name agent_version : string) (tr : trace) :
  e <> "" -> is_success status = true ->
  decodes (Demo.world e status data) question agent_name agent_version tr data.
Proof.
  intros He Hs. split; [exact He|].
  exists "t0", {| status_code := status; json_body := Ret data |}.
  repeat split. exact Hs.
Qed.

Lemma format1_no_output_text (fields : list (string * json)) :
  no_output_text fields = true -> format1 (JObj fields) = Ret None.
Proof.
  unfold no_output_text, format1. simpl.
  destruct (lookup "output_text" fields) as [v|]; simpl; [|reflexivity].
  intros H. apply negb_true_iff in H. now rewrite H.
Qed.

Lemma plain_block_typed (b : json) : plain_block b = true -> typed_block b = true.
Proof.
  destruct b as [| | |s|l|f]; simpl; try reflexivity.
  destruct (lookup "text" f) as [[]|]; simpl; congruence.
Qed.

Lemma message_item_typed (item : json) :
  message_item item = true -> typed_item item = true.
Proof.
  destruct item as [| | |s|l|f]; simpl; try discriminate.
  destruct (lookup "type" f) as [[| | |ty| |]|]; try discriminate.
  destruct (lookup "content" f) as [[| | |s|blocks|g]|]; try discriminate.
  intros H. apply andb_true_iff in H as [Hty Hb]. rewrite Hty.
  apply forallb_forall. intros b Hin.
  apply plain_block_typed. rewrite forallb_forall in Hb. now apply Hb.
Qed.

Lemma message_items_typed (items : list json) :
  forallb message_item items = true -> forallb typed_item items = true.
Proof.
  rewrite !forallb_forall. intros H item Hin.
  apply message_item_typed. now apply H.
Qed.

Lemma first_fragments_prefix (items : list json) (fs : list string) :
  first_fragments items = Some fs ->
  fs <> [] /\ exists later, all_fragments items = (fs ++ later)%list.
Proof.
  unfold all_fragments.
  induction items as [|item items IH]; simpl; [discriminate|].
  destruct (item_fragments item) as [|t ts] eqn:Hi.
  - intros H. destruct (IH H) as [Hne [later Hl]]. split; [exact Hne|].
    exists later. simpl. exact Hl.
  - intros H. injection H as <-. split; [discriminate|].
    exists (concat (map item_fragments items)). reflexivity.
Qed.

End Shapes.

(** C2. For a payload with no output text to return whose output field
    is an array of message items (blocks that are objects with a text, or
    raw strings), the client returns the fragments of the first item that
    has any, joined by newlines in block order.  These fragments open the
    list of all fragments of the array; the items after that one are not
    read. *)
Theorem output_array_first_item :
  forall (w : World) (question agent_name agent_version : string) (tr : trace)
         (fields : list (string * json)) (items : list json)
         (fs : list string),
    decodes w question agent_name agent_version tr (JObj fields) ->
    Documented.no_output_text fields = true ->
    lookup "output" fields = Some (JArr items) ->
    forallb Documented.message_item items = true ->
    Documented.first_fragments items = Some fs ->
    fst (_call_sub_agent w question agent_name agent_version tr)
    = Ret (JStr (join nl fs))
    /\ fs <> []
    /\ exists later, Documented.all_fragments items = (fs ++ later)%list.
Proof.
  intros w question agent_name agent_version tr fields items fs
         Hd Hno Hout Hitems Hfirst.
  split; [|now apply first_fragments_prefix].
  rewrite (call_decodes _ _ _ _ _ _ Hd).
  unfold parse_response, parse_from_output.
  rewrite (format1_no_output_text _ Hno). simpl.
  rewrite format2_typed.
  - unfold Documented.shape_output. rewrite Hout, Hfirst. reflexivity.
  - unfold Documented.typed_output. rewrite Hout.
    now apply message_items_typed.
Qed.

Lemma output_array_first_item_witness :
  fst (_call_sub_agent (Demo.world Demo.endpoint 200 (JObj Demo.one_message))
                       "How did we do?" "ContosoOpsAgent" "1" [])
  = Ret (JStr (join nl ["Sales rose 4%."; "Labor cost is flat."]))
  /\ ["Sales rose 4%."; "Labor cost is flat."] <> []
  /\ exists later,
       Documented.all_fragments
         [Demo.message_of ["Sales rose 4%."; "Labor cost is flat."]]
       = (["Sales rose 4%."; "Labor cost is flat."] ++ later)%list.
Proof.
  apply (output_array_first_item
           (Demo.world Demo.endpoint 200 (JObj Demo.one_message))
           "How did we do?" "ContosoOpsAgent" "1" [] Demo.one_message).
  - split; [discriminate|].
    exists "t0", {| status_code := 200;
                    json_body := Ret (JObj Demo.one_message) |}.
    repeat split.
  - reflexivity.
  - reflexivity.
  - reflexivity.
  - reflexivity.
Defined.

(** With two message items the result holds the fragments of the first
    one only, not all the fragments of the array. *)
Lemma output_array_all_fragments_counterexample :
  ~ (forall (w : World) (question agent_name agent_version : string)
            (tr : trace) (fields : list (string * json)) (items : list json),
        decodes w question agent_name agent_version tr (JObj fields) ->
        Documented.no_output_text fields = true ->
        lookup "output" fields = Some (JArr items) ->
        forallb Documented.message_item items = true ->
        fst (_call_sub_agent w question agent_name agent_version tr)
        = Ret (JStr (join nl (Documented.all_fragments items)))).
Proof.
  intros H.
  specialize (H (Demo.world Demo.endpoint 200 (JObj Demo.two_messages))
                "How did we do?" "ContosoOpsAgent" "1" [] Demo.two_messages
                [Demo.message_of ["Sales rose 4%."];
                 Demo.message_of ["Labor cost is flat."]]).
  assert (Hd : decodes (Demo.world Demo.endpoint 200 (JObj Demo.two_messages))
                       "How did we do?" "ContosoOpsAgent" "1" []
                       (JObj Demo.two_messages))
    by (apply demo_decodes; [discriminate | reflexivity]).
  specialize (H Hd eq_refl eq_refl eq_refl).
  vm_compute in H. discriminate H.
Qed.

(** C3. Once the payload is decoded the client never raises.  On a
    payload whose fields have the documented types it returns the text of
    the first of the three shapes that matches, tried in the order output
    text, output array, choices, and otherwise the marked diagnostic that
    embeds at most 300 leading characters of the payload as text.  When
    reading an ill-typed field raises, the result is the generic
    apology. *)
Theorem shapes_tried_in_order :
  forall (w : World) (question agent_name agent_version : string) (tr : trace)
         (data : json),
    decodes w question agent_name agent_version tr data ->
    (exists v,
        fst (_call_sub_agent w question agent_name agent_version tr) = Ret v
        /\ (parse_response agent_name data = Ret v
            \/ (exists e, parse_response agent_name data = Raise e)
               /\ v = JStr (unexpected_text agent_name)))
    /\ (forall fields,
           data = JObj fields ->
           Documented.well_typed fields = true ->
           fst (_call_sub_agent w question agent_name agent_version tr)
           = Ret (JStr (Documented.extract agent_name fields)))
    /\ (exists rest, py_str data = slice_to 300 (py_str data) ++ rest)
    /\ String.length (slice_to 300 (py_str data)) <= 300.
Proof.
  intros w question agent_name agent_version tr data Hd.
  repeat split.
  - rewrite (call_decodes _ _ _ _ _ _ Hd).
    destruct (parse_response agent_name data) as [v|e] eqn:Hp.
    + exists v. split; [reflexivity | now left].
    + exists (handle agent_name e). split; [reflexivity|]. right.
      split; [now exists e|].
      apply handle_internal. now apply parse_response_internal in Hp.
  - intros fields -> Ht. now apply call_decodes_typed.
  - apply slice_to_prefix.
  - apply slice_to_length.
Qed.

Lemma shapes_tried_in_order_witness :
  fst (_call_sub_agent (Demo.world Demo.endpoint 200 (JObj Demo.chat_completion))
                       "What is new?" "ContosoMenuAgent" "1" [])
  = Ret (JStr (Documented.extract "ContosoMenuAgent" Demo.chat_completion)).
Proof.
  refine (proj1 (proj2 (shapes_tried_in_order
           (Demo.world Demo.endpoint 200 (JObj Demo.chat_completion))
           "What is new?" "ContosoMenuAgent" "1" []
           (JObj Demo.chat_completion) _)) Demo.chat_completion eq_refl eq_refl).
  split; [discriminate|].
  exists "t0", {| status_code := 200;
                  json_body := Ret (JObj Demo.chat_completion) |}.
  repeat split.
Defined.

(** An output array that holds a number matches none of the three shapes,
    yet the result is the generic apology, not the diagnostic with the
    payload excerpt. *)
Lemma shapes_tried_in_order_counterexample :
  ~ (forall (w : World) (question agent_name agent_version : string)
            (tr : trace) (fields : list (string * json)),
        decodes w question agent_name agent_version tr (JObj fields) ->
        fst (_call_sub_agent w question agent_name agent_version tr)
        = Ret (JStr (Documented.extract agent_name fields))).
Proof.
  intros H.
  specialize (H (Demo.world Demo.endpoint 200 (JObj Demo.number_item))
                "How did we do?" "ContosoOpsAgent" "1" [] Demo.number_item).
  assert (Hd : decodes (Demo.world Demo.endpoint 200 (JObj Demo.number_item))
                       "How did we do?" "ContosoOpsAgent" "1" []
                       (JObj Demo.number_item))
    by (apply demo_decodes; [discriminate | reflexivity]).
  specialize (H Hd). vm_compute in H. discriminate H.
Qed.

(** C9. An output text that is present but empty is not returned: format
    1 yields nothing and the result is what the output array, the choices
    and the fallback give.  Whatever format 1 does return is a non-empty
    value of the key. *)
Theorem empty_output_text_falls_through :
  forall (w : World) (question agent_name agent_version : string) (tr : trace)
         (fields : list (string * json)) (v : json),
    decodes w question agent_name agent_version tr (JObj fields) ->
    lookup "output_text" fields = Some v ->
    truthy v = false ->
    format1 (JObj fields) = Ret None
    /\ parse_response agent_name (JObj fields)
       = parse_from_output agent_name (JObj fields)
    /\ fst (_call_sub_agent w question agent_name agent_version tr)
       = Ret match parse_from_output agent_name (JObj fields) with
             | Ret result => result
             | Raise e => handle agent_name e
             end
    /\ (forall data result,
           format1 data = Ret (Some result) ->
           getitem "output_text" data = Ret result /\ truthy result = true).
Proof.
  intros w question agent_name agent_version tr fields v Hd Hl Hv.
  assert (H1 : format1 (JObj fields) = Ret None).
  { apply format1_no_output_text. unfold Documented.no_output_text.
    rewrite Hl, Hv. reflexivity. }
  assert (H2 : parse_response agent_name (JObj fields)
               = parse_from_output agent_name (JObj fields)).
  { unfold parse_response. rewrite H1. reflexivity. }
  repeat split.
  - exact H1.
  - exact H2.
  - rewrite (call_decodes _ _ _ _ _ _ Hd). now rewrite H2.
  - revert H. unfold format1.
    destruct (py_in "output_text" data) as [[|]|]; simpl; try discriminate.
    destruct (getitem "output_text" data) as [r|]; simpl; try discriminate.
    destruct (truthy r); try discriminate.
    destruct (log_slice r); simpl; try discriminate.
    intros H. now inversion H.
  - revert H. unfold format1.
    destruct (py_in "output_text" data) as [[|]|]; simpl; try discriminate.
    destruct (getitem "output_text" data) as [r|]; simpl; try discriminate.
    destruct (truthy r) eqn:Hr; try discriminate.
    destruct (log_slice r); simpl; try discriminate.
    intros H. inversion H. now subst.
Qed.

Lemma empty_output_text_falls_through_witness :
  fst (_call_sub_agent (Demo.world Demo.endpoint 200 (JObj Demo.one_message))
                       "How did we do?" "ContosoOpsAgent" "1" [])
  = Ret match parse_from_output "ContosoOpsAgent" (JObj Demo.one_message) with
        | Ret result => result
        | Raise e => handle "ContosoOpsAgent" e
        end.
Proof.
  refine (proj1 (proj2 (proj2 (empty_output_text_falls_through
           (Demo.world Demo.endpoint 200 (JObj Demo.one_message))
           "How did we do?" "ContosoOpsAgent" "1" []
           Demo.one_message (JStr "") _ eq_refl eq_refl)))).
  split; [discriminate|].
  exists "t0", {| status_code := 200;
                  json_body := Ret (JObj Demo.one_message) |}.
  repeat split.
Defined.

(** ** Errors *)

Section Errors.

Variable w : World.
Variables question agent_name agent_version : string.
Variable tr : trace.

(** Inside the [try], every failure ends as a text: the status text for
    a response outside 2xx, the try-later text for a transport failure,
    the generic apology for a body that does not decode or a field that
    cannot be read. *)
Lemma try_errors_become_text (token : string) :
  FOUNDRY_PROJECT_ENDPOINT w <> "" ->
  get_token w tr token_scope = Ret token ->
  let sent := post w (tr ++ [GetToken token_scope])%list
                   (request_of w question agent_name agent_version token) in
  let result := fst (_call_sub_agent w question agent_name agent_version tr) in
  (exists v, result = Ret v)
  /\ (forall resp, sent = Ret resp -> is_success (status_code resp) = false ->
        result = Ret (JStr (status_text agent_name (status_code resp))))
  /\ (sent = Raise RequestError ->
        result = Ret (JStr (connect_text agent_name)))
  /\ (forall resp e, sent = Ret resp -> is_success (status_code resp) = true ->
        json_body resp = Raise e -> internal e \/ e = ValueError ->
        result = Ret (JStr (unexpected_text agent_name)))
  /\ (forall resp data e, sent = Ret resp ->
        is_success (status_code resp) = true ->
        json_body resp = Ret data -> parse_response agent_name data = Raise e ->
        result = Ret (JStr (unexpected_text agent_name))).
Proof.
  intros Hc Ht sent result. subst sent result.
  rewrite (call_with_token w question agent_name agent_version tr token Hc Ht).
  simpl. unfold try_body. repeat split.
  - eexists. reflexivity.
  - intros resp Hp Hs. rewrite Hp. simpl. rewrite Hs. reflexivity.
  - intros Hp. rewrite Hp. reflexivity.
  - intros resp e Hp Hs Hj He. rewrite Hp. simpl. rewrite Hs, Hj. simpl.
    destruct He as [He | ->]; [|reflexivity].
    now rewrite handle_internal.
  - intros resp data e Hp Hs Hj He. rewrite Hp. simpl. rewrite Hs, Hj. simpl.
    rewrite He. rewrite handle_internal; [reflexivity|].
    now apply parse_response_internal in He.
Qed.

End Errors.

(** C4. When the credential cannot give a token, [get_token] raises
    before the [try] is entered: the client returns no text, the
    exception leaves [_call_sub_agent], and the run of the graph that
    dispatched the tool fails with it. *)
Theorem credential_failure_escapes :
  _call_sub_agent Demo.no_credential "How are Southwest stores performing?"
                  "ContosoOpsAgent" "1" []
  = (Raise (OtherError "ClientAuthenticationError"), [GetToken token_scope])
  /\ run_graph Demo.no_credential Demo.commenting_llm 25
               [HumanMessage "How are Southwest stores performing?"] []
     = (Failed (OtherError "ClientAuthenticationError"),
        [GetToken token_scope]).
Proof. split; reflexivity. Qed.

(** ** Credentials *)

Section Credentials.

Lemma token_acquisitions_app (a b : trace) :
  token_acquisitions (a ++ b)%list
  = token_acquisitions a + token_acquisitions b.
Proof.
  unfold token_acquisitions. now rewrite filter_app, length_app.
Qed.

Lemma call_acquires_one (w : World)
  (question agent_name agent_version : string) (tr : trace) :
  FOUNDRY_PROJECT_ENDPOINT w <> "" ->
  token_acquisitions (snd (_call_sub_agent w question agent_name
                                           agent_version tr))
  = S (token_acquisitions tr).
Proof.
  intros Hc. unfold _call_sub_agent.
  apply String.eqb_neq in Hc. rewrite Hc.
  destruct (get_token w tr token_scope) as [token|e].
  - destruct (try_body w agent_name _ _); simpl;
      rewrite !token_acquisitions_app; unfold token_acquisitions;
      simpl; lia.
  - simpl. rewrite token_acquisitions_app. unfold token_acquisitions.
    simpl. lia.
Qed.

End Credentials.

(** C8. Every invocation made with a configured endpoint builds a fresh
    credential and acquires one bearer token, whatever happened before:
    two invocations in a row acquire two. *)
Theorem token_acquired_on_every_call :
  forall (w : World) (q1 n1 v1 q2 n2 v2 : string) (tr : trace),
    FOUNDRY_PROJECT_ENDPOINT w <> "" ->
    let after_first := snd (_call_sub_agent w q1 n1 v1 tr) in
    let after_second := snd (_call_sub_agent w q2 n2 v2 after_first) in
    token_acquisitions after_first = S (token_acquisitions tr)
    /\ token_acquisitions after_second = S (token_acquisitions after_first).
Proof.
  intros w q1 n1 v1 q2 n2 v2 tr Hc after_first after_second.
  split; now apply call_acquires_one.
Qed.

Lemma token_acquired_on_every_call_witness :
  let w := Demo.world Demo.endpoint 200 (JObj Demo.one_message) in
  let after_first := snd (_call_sub_agent w "q1" "ContosoOpsAgent" "1" []) in
  let after_second :=
    snd (_call_sub_agent w "q2" "ContosoMenuAgent" "1" after_first) in
  token_acquisitions after_first = S (token_acquisitions [])
  /\ token_acquisitions after_second = S (token_acquisitions after_first).
Proof.
  apply (token_acquired_on_every_call
           (Demo.world Demo.endpoint 200 (JObj Demo.one_message))
           "q1" "ContosoOpsAgent" "1" "q2" "ContosoMenuAgent" "1" []).
  discriminate.
Defined.

(** The second invocation acquires a token of its own. *)
Lemma token_reuse_counterexample :
  ~ (forall (w : World) (q1 n1 v1 q2 n2 v2 : string) (tr : trace),
        let after_first := snd (_call_sub_agent w q1 n1 v1 tr) in
        token_acquisitions (snd (_call_sub_agent w q2 n2 v2 after_first))
        = token_acquisitions after_first).
Proof.
  intros H.
  specialize (H (Demo.world Demo.endpoint 200 (JObj Demo.one_message))
                "q1" "ContosoOpsAgent" "1" "q2" "ContosoOpsAgent" "1" []).
  vm_compute in H. discriminate H.
Qed.

(** ** The question on its way to the specialist *)

Section Questions.

Lemma posted_app (a b : trace) :
  posted (a ++ b)%list = (posted a ++ posted b)%list.
Proof.
  induction a as [|[scope|req] a IH]; simpl; [reflexivity | exact IH |].
  now rewrite IH.
Qed.

Lemma tool_body_trace (w : World) (name version question : string) (tr : trace) :
  snd (tool_body w name version question tr)
  = snd (_call_sub_agent w question name version tr).
Proof.
  unfold tool_body.
  destruct (_call_sub_agent w question name version tr) as [[r|e] tr'];
    reflexivity.
Qed.

Lemma call_posted (w : World) (question name version : string) (tr : trace) :
  posted (snd (_call_sub_agent w question name version tr)) = posted tr
  \/ exists token,
       get_token w tr token_scope = Ret token
       /\ posted (snd (_call_sub_agent w question name version tr))
          = (posted tr ++ [request_of w question name version token])%list.
Proof.
  unfold _call_sub_agent.
  destruct (FOUNDRY_PROJECT_ENDPOINT w =? ""); [now left|].
  destruct (get_token w tr token_scope) as [token|e].
  - right. exists token. split; [reflexivity|].
    destruct (try_body w name _ _); simpl;
      rewrite !posted_app; simpl; now rewrite app_nil_r.
  - left. simpl. rewrite posted_app. simpl. now rewrite app_nil_r.
Qed.

End Questions.

(** C5. Each tool hands its question to the client as it received it,
    with the name and version of its own specialist, and every request
    the client posts for a question [Q] carries [Q] itself as the content
    of its single user-role input. *)
Theorem question_passed_verbatim :
  forall (w : World) (Q : string) (tr : trace),
    (forall name version token,
        payload (request_of w Q name version token)
        = request_payload Q name version
        /\ user_question (request_payload Q name version) = Some Q)
    /\ snd (query_ops_agent w Q tr)
       = snd (_call_sub_agent w Q (OPS_AGENT_NAME w) (OPS_AGENT_VERSION w) tr)
    /\ snd (query_menu_agent w Q tr)
       = snd (_call_sub_agent w Q (MENU_AGENT_NAME w) (MENU_AGENT_VERSION w) tr)
    /\ (forall name version,
           posted (snd (_call_sub_agent w Q name version tr)) = posted tr
           \/ exists token,
                posted (snd (_call_sub_agent w Q name version tr))
                = (posted tr ++ [request_of w Q name version token])%list)
    /\ (forall token,
           FOUNDRY_PROJECT_ENDPOINT w <> "" ->
           get_token w tr token_scope = Ret token ->
           posted (snd (query_ops_agent w Q tr))
           = (posted tr ++ [request_of w Q (OPS_AGENT_NAME w)
                                       (OPS_AGENT_VERSION w) token])%list
           /\ posted (snd (query_menu_agent w Q tr))
              = (posted tr ++ [request_of w Q (MENU_AGENT_NAME w)
                                          (MENU_AGENT_VERSION w) token])%list).
Proof.
  intros w Q tr.
  split; [now split|]. split; [apply tool_body_trace|].
  split; [apply tool_body_trace|]. split.
  - intros name version.
    destruct (call_posted w Q name version tr) as [H | [token [_ H]]];
      [now left | right; now exists token].
  - intros token Hc Ht.
    unfold query_ops_agent, query_menu_agent. rewrite !tool_body_trace.
    rewrite !(call_with_token w Q _ _ tr token Hc Ht). simpl.
    rewrite !posted_app. simpl. rewrite !app_nil_r. now split.
Qed.

Lemma question_passed_verbatim_witness :
  let w := Demo.world Demo.endpoint 200 (JObj Demo.one_message) in
  let Q := "How are Southwest stores performing?" in
  posted (snd (query_ops_agent w Q []))
  = [request_of w Q "ContosoOpsAgent" "1" "t0"]
  /\ posted (snd (query_menu_agent w Q []))
     = [request_of w Q "ContosoMenuAgent" "1" "t0"].
Proof.
  refine (proj2 (proj2 (proj2 (proj2 (question_passed_verbatim
           (Demo.world Demo.endpoint 200 (JObj Demo.one_message))
           "How are Southwest stores performing?" []))))
           "t0" _ eq_refl).
  discriminate.
Defined.

(** ** What a tool returns *)

Section ToolResults.

Lemma bind_ret {A B : Type} (c : pyres A) (k : A -> pyres B) (b : B) :
  bind c k = Ret b -> exists a, c = Ret a /\ k a = Ret b.
Proof.
  destruct c as [a|e]; simpl; intros H; [now exists a | discriminate].
Qed.

Tactic Notation "returned" hyp(H) "as" ident(a) :=
  apply bind_ret in H as [a [_ H]].

Lemma format1_sliceable data v :
  format1 data = Ret (Some v) -> log_slice v = Ret tt.
Proof.
  unfold format1. intros H. returned H as present.
  destruct present; [|discriminate].
  returned H as result. destruct (truthy result); [|discriminate].
  destruct (log_slice result) as [[]|e] eqn:Hl; simpl in H; [|discriminate].
  inversion H. now subst.
Qed.

Lemma scan_output_sliceable items v :
  scan_output items = Ret (Some v) -> log_slice v = Ret tt.
Proof.
  induction items as [|item items IH]; simpl; [discriminate|].
  intros H. returned H as ty. returned H as is_message.
  destruct is_message; [|now apply IH].
  returned H as content. returned H as blocks.
  destruct (collect_texts blocks); [now apply IH|].
  returned H as result. inversion H. reflexivity.
Qed.

Lemma format2_sliceable data v :
  format2 data = Ret (Some v) -> log_slice v = Ret tt.
Proof.
  unfold format2. intros H. returned H as present.
  destruct present; [|discriminate].
  returned H as output. destruct output; try discriminate.
  now apply scan_output_sliceable in H.
Qed.

Lemma format3_sliceable data v :
  format3 data = Ret (Some v) -> log_slice v = Ret tt.
Proof.
  unfold format3. intros H. returned H as present.
  destruct present; [|discriminate].
  returned H as choices. destruct (truthy choices); [|discriminate].
  returned H as first. returned H as message. returned H as content.
  destruct (truthy content); [|discriminate].
  destruct (log_slice content) as [[]|e] eqn:Hl; simpl in H; [|discriminate].
  inversion H. now subst.
Qed.

Lemma parse_response_sliceable name data v :
  parse_response name data = Ret v -> log_slice v = Ret tt.
Proof.
  unfold parse_response, parse_from_output. intros H.
  destruct (format1 data) as [[r1|]|] eqn:H1; simpl in H; try discriminate.
  { inversion H. subst. now apply format1_sliceable in H1. }
  destruct (format2 data) as [[r2|]|] eqn:H2; simpl in H; try discriminate.
  { inversion H. subst. now apply format2_sliceable in H2. }
  destruct (format3 data) as [[r3|]|] eqn:H3; simpl in H; try discriminate.
  { inversion H. subst. now apply format3_sliceable in H3. }
  inversion H. reflexivity.
Qed.

Lemma handle_sliceable name e : log_slice (handle name e) = Ret tt.
Proof. destruct e; reflexivity. Qed.

Variable w : World.

Lemma try_body_sliceable name req tr v :
  try_body w name req tr = Ret v -> log_slice v = Ret tt.
Proof.
  unfold try_body. intros H.
  destruct (post w tr req) as [resp|e]; simpl in H; [|discriminate].
  destruct (is_success (status_code resp)); [|discriminate].
  destruct (json_body resp) as [data|e]; simpl in H; [|discriminate].
  now apply parse_response_sliceable in H.
Qed.

(** The value the client returns can always be sliced for the log line
    of the tool. *)
Lemma call_sliceable question name version tr v tr' :
  _call_sub_agent w question name version tr = (Ret v, tr') ->
  log_slice v = Ret tt.
Proof.
  unfold _call_sub_agent.
  destruct (FOUNDRY_PROJECT_ENDPOINT w =? "").
  - intros H. inversion H. reflexivity.
  - destruct (get_token w tr token_scope) as [token|e]; [|discriminate].
    destruct (try_body w name _ _) as [r|e] eqn:Ht; intros H; inversion H.
    + subst. now apply try_body_sliceable in Ht.
    + apply handle_sliceable.
Qed.

(** A tool returns what the client returns. *)
Lemma tool_body_result name version question tr :
  tool_body w name version question tr
  = _call_sub_agent w question name version tr.
Proof.
  unfold tool_body.
  destruct (_call_sub_agent w question name version tr) as [[v|e] tr'] eqn:Hc;
    [|reflexivity].
  now rewrite (call_sliceable _ _ _ _ _ _ Hc).
Qed.

(** The client returns whenever the credential gives a token. *)
Lemma call_returns question name version tr :
  (forall tr0, exists token, get_token w tr0 token_scope = Ret token) ->
  exists v tr',
    _call_sub_agent w question name version tr = (Ret v, tr').
Proof.
  intros Htok. unfold _call_sub_agent.
  destruct (FOUNDRY_PROJECT_ENDPOINT w =? ""); [now eexists _, _|].
  destruct (Htok tr) as [token ->].
  destruct (try_body w name _ _); now eexists _, _.
Qed.

End ToolResults.

(** ** The graph *)

Section GraphFacts.

Variable w : World.
Variable llm : list message -> pyres (string * list tool_call).

Lemma last_message_snoc (st : state) (m : message) :
  last_message (st ++ [m])%list = Ret m.
Proof. unfold last_message. now rewrite rev_unit. Qed.

Lemma final_answer_snoc (st : state) (m : message) :
  final_answer (st ++ [m])%list = Some (message_content m).
Proof. unfold final_answer. now rewrite rev_unit. Qed.

Lemma tool_node_dispatch (st : state) (content : string)
  (calls : list tool_call) (tr : trace) :
  tool_node w (st ++ [AIMessage content calls])%list tr
  = run_tool_calls w calls [] tr.
Proof. unfold tool_node. now rewrite last_message_snoc. Qed.

Lemma tools_by_name_registered (tc : tool_call) :
  registered tc ->
  _tools_by_name w (tc_name tc) = Ret (query_ops_agent w)
  \/ _tools_by_name w (tc_name tc) = Ret (query_menu_agent w).
Proof.
  unfold _tools_by_name, _tools. intros [H | H]; rewrite H; simpl; auto.
Qed.

Lemma run_tool_calls_ids (calls : list tool_call) :
  forall (result : list message) (tr : trace) (msgs : list message)
         (tr' : trace),
    run_tool_calls w calls result tr = (Ret msgs, tr') ->
    exists new,
      msgs = (result ++ new)%list
      /\ map tool_result_id new = map (fun tc => Some (tc_id tc)) calls.
Proof.
  induction calls as [|tc calls IH]; intros result tr msgs tr'; simpl.
  - intros H. inversion H. exists []. split; [now rewrite app_nil_r|reflexivity].
  - destruct (_tools_by_name w (tc_name tc)) as [t|e]; [|discriminate].
    destruct (t (tc_args tc) tr) as [[observation|e] tr1]; [|discriminate].
    intros H. apply IH in H as [new [Hm Hids]].
    exists (ToolMessage (py_str observation) (tc_id tc) :: new). split.
    + rewrite Hm, <- app_assoc. reflexivity.
    + simpl. now rewrite Hids.
Qed.

Lemma run_tool_calls_returns (calls : list tool_call) :
  (forall tr0, exists token, get_token w tr0 token_scope = Ret token) ->
  Forall registered calls ->
  forall (result : list message) (tr : trace),
  exists msgs tr', run_tool_calls w calls result tr = (Ret msgs, tr').
Proof.
  intros Htok. induction 1 as [|tc calls Hreg _ IH]; intros result tr; simpl.
  - now eexists _, _.
  - assert (Ht : exists t name version,
               _tools_by_name w (tc_name tc) = Ret t
               /\ forall q tr0, t q tr0 = _call_sub_agent w q name version tr0).
    { destruct (tools_by_name_registered tc Hreg) as [H | H]; rewrite H.
      - exists (query_ops_agent w), (OPS_AGENT_NAME w), (OPS_AGENT_VERSION w).
        split; [reflexivity|]. intros. apply tool_body_result.
      - exists (query_menu_agent w), (MENU_AGENT_NAME w), (MENU_AGENT_VERSION w).
        split; [reflexivity|]. intros. apply tool_body_result. }
    destruct Ht as [t [name [version [-> Ht]]]]. rewrite Ht.
    destruct (call_returns w (tc_args tc) name version tr Htok)
      as [v [tr1 ->]].
    apply IH.
Qed.

Lemma run_graph_tools (fuel : nat) (st : state) (tr tr' : trace)
  (content : string) (calls : list tool_call) (results : list message) :
  llm (SystemMessage SYSTEM_PROMPT :: st) = Ret (content, calls) ->
  calls <> [] ->
  tool_node w (st ++ [AIMessage content calls])%list tr = (Ret results, tr') ->
  run_graph w llm (S fuel) st tr
  = run_graph w llm fuel ((st ++ [AIMessage content calls]) ++ results)%list tr'.
Proof.
  intros Hl Hc Ht. simpl. unfold llm_call. rewrite Hl. simpl.
  unfold should_continue. rewrite last_message_snoc. simpl.
  destruct calls as [|tc calls]; [congruence|].
  now rewrite Ht.
Qed.


End GraphFacts.







(** ** Scenarios *)

Section Scenarios.

Example rstrip_two_slashes :
  rstrip_slash "https://contoso.example/p//" = "https://contoso.example/p".
Proof. reflexivity. Qed.

Example str_of_payload :
  py_str (JObj [("status", JStr "it's done"); ("items", JArr [JNum 5; JNull])])
  = "{'status': " ++ String dquote ("it's done" ++ String dquote "")
    ++ ", 'items': [5, None]}".
Proof. reflexivity. Qed.

Example http_500 :
  fst (_call_sub_agent (Demo.world Demo.endpoint 500 JNull)
                       "How did we do?" "ContosoOpsAgent" "1" [])
  = Ret (JStr "Sorry, I couldn't reach the ContosoOpsAgent. It returned HTTP 500. Please try again.").
Proof. reflexivity. Qed.

Example unknown_shape :
  fst (_call_sub_agent (Demo.world Demo.endpoint 200
                                   (JObj [("result", JArr [JNum 5])]))
                       "How did we do?" "ContosoOpsAgent" "1" [])
  = Ret (JStr "Received a response from ContosoOpsAgent but could not parse it. Raw: {'result': [5]}").
Proof. reflexivity. Qed.

Example two_specialists_one_round :
  fst (run_graph (Demo.world Demo.endpoint 200 (JObj [("output_text", JStr "ok")]))
                 Demo.parallel_llm 25 [HumanMessage "Sales and a new burger?"] [])
  = Finished
      [HumanMessage "Sales and a new burger?";
       AIMessage "" [{| tc_name := "query_ops_agent";
                        tc_args := "Sales and a new burger?";
                        tc_id := "call_1" |};
                     {| tc_name := "query_menu_agent";
                        tc_args := "Sales and a new burger?";
                        tc_id := "call_2" |}];
       ToolMessage "ok" "call_1"; ToolMessage "ok" "call_2";
       AIMessage "Done." []].
Proof. reflexivity. Qed.

End Scenarios.

(** * Further properties of the client *)

(** X1. The only exception that leaves the client is the one the
    credential raises: when [_call_sub_agent] raises, the endpoint was
    configured, [get_token] raised that very exception, and nothing but
    the token acquisition was attempted. *)
Theorem client_raises_only_on_credential_failure :
  forall (w : World) (question agent_name agent_version : string)
         (tr tr' : trace) (e : exn),
    _call_sub_agent w question agent_name agent_version tr = (Raise e, tr') ->
    FOUNDRY_PROJECT_ENDPOINT w <> ""
    /\ get_token w tr token_scope = Raise e
    /\ tr' = (tr ++ [GetToken token_scope])%list.
Proof.
  intros w question agent_name agent_version tr tr' e.
  unfold _call_sub_agent.
  destruct (FOUNDRY_PROJECT_ENDPOINT w =? "") eqn:Hc; [discriminate|].
  apply String.eqb_neq in Hc.
  destruct (get_token w tr token_scope) as [token|e0].
  - destruct (try_body w agent_name _ _); discriminate.
  - intros H. inversion H. subst. now repeat split.
Qed.

Lemma client_raises_only_on_credential_failure_witness :
  FOUNDRY_PROJECT_ENDPOINT Demo.no_credential <> ""
  /\ get_token Demo.no_credential [] token_scope
     = Raise (OtherError "ClientAuthenticationError")
  /\ [GetToken token_scope] = ([] ++ [GetToken token_scope])%list.
Proof.
  apply (client_raises_only_on_credential_failure
           Demo.no_credential "How did we do?" "ContosoOpsAgent" "1" []).
  reflexivity.
Defined.

(** X2. A tool returns what the client returns, value and trace: the
    log line that slices the result never raises, because every value
    the client returns is a string or a list. *)
Theorem tools_return_client_result :
  forall (w : World) (question : string) (tr : trace),
    query_ops_agent w question tr
    = _call_sub_agent w question (OPS_AGENT_NAME w) (OPS_AGENT_VERSION w) tr
    /\ query_menu_agent w question tr
       = _call_sub_agent w question (MENU_AGENT_NAME w) (MENU_AGENT_VERSION w) tr
    /\ forall name version v tr',
         _call_sub_agent w question name version tr = (Ret v, tr') ->
         exists s items, v = JStr s \/ v = JArr items.
Proof.
  intros w question tr. repeat split.
  - apply tool_body_result.
  - apply tool_body_result.
  - intros name version v tr' H. apply call_sliceable in H.
    destruct v; try discriminate.
    + exists s, []. now left.
    + exists "", items. now right.
Qed.

(** X3. One invocation makes at most one token acquisition and at most
    one request, in that order, and never repeats a request: the trace
    is unchanged, or grows by the token acquisition, or by the token
    acquisition followed by one post to the versioned URL with the
    two-minute timeout and the bearer token just acquired. *)
Theorem one_request_per_call :
  forall (w : World) (question agent_name agent_version : string) (tr : trace),
    let tr' := snd (_call_sub_agent w question agent_name agent_version tr) in
    tr' = tr
    \/ tr' = (tr ++ [GetToken token_scope])%list
    \/ exists token req,
         get_token w tr token_scope = Ret token
         /\ tr' = (tr ++ [GetToken token_scope; Post req])%list
         /\ url req = request_url (FOUNDRY_PROJECT_ENDPOINT w)
         /\ timeout req = 120%Z
         /\ Environ.get (headers req) "Authorization" = Some ("Bearer " ++ token)
         /\ payload req = request_payload question agent_name agent_version.
Proof.
  intros w question agent_name agent_version tr. simpl.
  unfold _call_sub_agent.
  destruct (FOUNDRY_PROJECT_ENDPOINT w =? ""); [now left|].
  destruct (get_token w tr token_scope) as [token|e] eqn:Ht.
  - right. right.
    exists token, (request_of w question agent_name agent_version token).
    split; [reflexivity|]. split.
    + destruct (try_body w agent_name _ _); simpl;
        now rewrite <- app_assoc.
    + now repeat split.
  - right. now left.
Qed.

Section ErrorTexts.

Variable w : World.
Variables question agent_name agent_version : string.
Variable tr : trace.
Variable token : string.

Hypothesis configured : FOUNDRY_PROJECT_ENDPOINT w <> "".
Hypothesis has_token : get_token w tr token_scope = Ret token.

Let sent : pyres response :=
  post w (tr ++ [GetToken token_scope])%list
       (request_of w question agent_name agent_version token).

Lemma call_after_post :
  fst (_call_sub_agent w question agent_name agent_version tr)
  = Ret match (resp <- sent ;;
               if is_success (status_code resp)
               then data <- json_body resp ;; parse_response agent_name data
               else Raise (HTTPStatusError (status_code resp))) with
        | Ret result => result
        | Raise e => handle agent_name e
        end.
Proof.
  rewrite (call_with_token w question agent_name agent_version tr token
                           configured has_token).
  reflexivity.
Qed.

End ErrorTexts.

(** X4. A response whose status lies outside 200..299 is never parsed:
    whatever its body, the result is the status text, which names the
    agent and shows the status code in decimal. *)
Theorem non_2xx_gives_status_text :
  forall (w : World) (question agent_name agent_version : string)
         (tr : trace) (token : string) (resp : response),
    FOUNDRY_PROJECT_ENDPOINT w <> "" ->
    get_token w tr token_scope = Ret token ->
    post w (tr ++ [GetToken token_scope])%list
         (request_of w question agent_name agent_version token) = Ret resp ->
    (status_code resp < 200 \/ 299 < status_code resp)%Z ->
    fst (_call_sub_agent w question agent_name agent_version tr)
    = Ret (JStr (status_text agent_name (status_code resp)))
    /\ mentions (status_text agent_name (status_code resp)) agent_name
    /\ mentions (status_text agent_name (status_code resp))
                (dec (status_code resp)).
Proof.
  intros w question agent_name agent_version tr token resp Hc Ht Hp Hs.
  split.
  - rewrite (call_after_post w question agent_name agent_version tr token Hc Ht).
    rewrite Hp. simpl.
    assert (Hn : is_success (status_code resp) = false).
    { unfold is_success. apply andb_false_iff.
      destruct Hs; [left; apply Z.leb_gt | right; apply Z.leb_gt]; lia. }
    now rewrite Hn.
  - split.
    + apply mentions_intro.
    + unfold status_text.
      exists ("Sorry, I couldn't reach the " ++ agent_name
              ++ ". It returned HTTP "), ". Please try again.".
      now rewrite !append_assoc.
Qed.

Lemma non_2xx_gives_status_text_witness :
  fst (_call_sub_agent
         (Demo.world Demo.endpoint 404 (JObj [("output_text", JStr "ok")]))
         "How did we do?" "ContosoOpsAgent" "1" [])
  = Ret (JStr (status_text "ContosoOpsAgent" 404)).
Proof.
  refine (proj1 (non_2xx_gives_status_text
           (Demo.world Demo.endpoint 404 (JObj [("output_text", JStr "ok")]))
           "How did we do?" "ContosoOpsAgent" "1" [] "t0"
           {| status_code := 404;
              json_body := Ret (JObj [("output_text", JStr "ok")]) |}
           _ eq_refl eq_refl _)).
  - discriminate.
  - right. reflexivity.
Defined.

(** X5. When the post fails in transport the result is the try-later
    text naming the agent; the request was attempted once and is not
    repeated. *)
Theorem transport_failure_gives_connect_text :
  forall (w : World) (question agent_name agent_version : string)
         (tr : trace) (token : string),
    FOUNDRY_PROJECT_ENDPOINT w <> "" ->
    get_token w tr token_scope = Ret token ->
    post w (tr ++ [GetToken token_scope])%list
         (request_of w question agent_name agent_version token)
    = Raise RequestError ->
    _call_sub_agent w question agent_name agent_version tr
    = (Ret (JStr (connect_text agent_name)),
       (tr ++ [GetToken token_scope;
               Post (request_of w question agent_name agent_version token)])%list)
    /\ mentions (connect_text agent_name) agent_name.
Proof.
  intros w question agent_name agent_version tr token Hc Ht Hp. split.
  - rewrite (call_with_token w question agent_name agent_version tr token Hc Ht).
    unfold try_body. rewrite Hp. simpl. now rewrite <- app_assoc.
  - apply mentions_intro.
Qed.

Lemma transport_failure_gives_connect_text_witness :
  _call_sub_agent Samples.unreachable "How did we do?" "ContosoOpsAgent" "1" []
  = (Ret (JStr (connect_text "ContosoOpsAgent")),
     ([] ++ [GetToken token_scope;
             Post (request_of Samples.unreachable "How did we do?"
                              "ContosoOpsAgent" "1" "t0")])%list)
  /\ mentions (connect_text "ContosoOpsAgent") "ContosoOpsAgent".
Proof.
  apply (transport_failure_gives_connect_text
           Samples.unreachable "How did we do?" "ContosoOpsAgent" "1" [] "t0").
  - discriminate.
  - reflexivity.
  - reflexivity.
Defined.

(** X6. When a 2xx response has a body that does not decode, or when the
    post raises anything that is neither a status error nor a transport
    failure, the result is the generic apology. *)
Theorem other_failures_give_apology :
  forall (w : World) (question agent_name agent_version : string)
         (tr : trace) (token : string) (e : exn),
    FOUNDRY_PROJECT_ENDPOINT w <> "" ->
    get_token w tr token_scope = Ret token ->
    (forall code, e <> HTTPStatusError code) ->
    e <> RequestError ->
    let sent := post w (tr ++ [GetToken token_scope])%list
                     (request_of w question agent_name agent_version token) in
    sent = Raise e
    \/ (exists resp, sent = Ret resp
                     /\ is_success (status_code resp) = true
                     /\ json_body resp = Raise e) ->
    fst (_call_sub_agent w question agent_name agent_version tr)
    = Ret (JStr (unexpected_text agent_name)).
Proof.
  intros w question agent_name agent_version tr token e Hc Ht Hs Hr sent H.
  rewrite (call_after_post w question agent_name agent_version tr token Hc Ht).
  fold sent.
  assert (He : handle agent_name e = JStr (unexpected_text agent_name)).
  { destruct e as [code| | | | | | |name]; try reflexivity;
      [now destruct (Hs code) | congruence]. }
  destruct H as [-> | [resp [-> [Hok Hj]]]]; simpl.
  - now rewrite He.
  - rewrite Hok, Hj. simpl. now rewrite He.
Qed.

Lemma other_failures_give_apology_witness :
  fst (_call_sub_agent Samples.not_json "How did we do?" "ContosoOpsAgent" "1" [])
  = Ret (JStr (unexpected_text "ContosoOpsAgent")).
Proof.
  apply (other_failures_give_apology
           Samples.not_json "How did we do?" "ContosoOpsAgent" "1" [] "t0"
           ValueError).
  - discriminate.
  - reflexivity.
  - discriminate.
  - discriminate.
  - right. exists {| status_code := 200; json_body := Raise ValueError |}.
    repeat split.
Defined.

(** X7. The texts of the failure kinds cannot be confused: for every
    agent name, status code and payload the configuration text, the
    status text, the try-later text, the generic apology and the
    unparsable diagnostic are five different texts. *)
Theorem failure_texts_differ :
  forall (agent_name : string) (code : Z) (data : json),
    let texts := [not_configured agent_name; status_text agent_name code;
                  connect_text agent_name; unexpected_text agent_name;
                  unparsable agent_name data] in
    NoDup texts.
Proof.
  intros agent_name code data texts. subst texts.
  unfold not_configured, status_text, connect_text, unexpected_text, unparsable.
  repeat constructor; simpl; intros H;
    repeat (destruct H as [H | H]; [discriminate H|]); exact H.
Qed.

(** X8. A non-empty output text wins over everything else in the
    payload: it is returned as it is, and the output array and the
    choices are not looked at, even when reading them would raise. *)
Theorem output_text_wins :
  forall (w : World) (question agent_name agent_version : string) (tr : trace)
         (fields : list (string * json)) (s : string),
    decodes w question agent_name agent_version tr (JObj fields) ->
    lookup "output_text" fields = Some (JStr s) ->
    s <> "" ->
    fst (_call_sub_agent w question agent_name agent_version tr)
    = Ret (JStr s).
Proof.
  intros w question agent_name agent_version tr fields s Hd Hl Hs.
  rewrite (call_decodes _ _ _ _ _ _ Hd).
  unfold parse_response, format1. simpl. rewrite Hl. simpl.
  apply String.eqb_neq in Hs. rewrite Hs. reflexivity.
Qed.

Lemma output_text_wins_witness :
  fst (_call_sub_agent
         (Demo.world Demo.endpoint 200 (JObj Samples.text_and_number))
         "Which stores are open?" "ContosoOpsAgent" "1" [])
  = Ret (JStr "All stores are open.").
Proof.
  apply (output_text_wins
           (Demo.world Demo.endpoint 200 (JObj Samples.text_and_number))
           "Which stores are open?" "ContosoOpsAgent" "1" []
           Samples.text_and_number).
  - split; [discriminate|].
    exists "t0", {| status_code := 200;
                    json_body := Ret (JObj Samples.text_and_number) |}.
    repeat split.
  - reflexivity.
  - discriminate.
Defined.

(** X9. A body that decodes to null, a boolean or a number is not a
    container: the first membership test raises and the result is the
    generic apology, not the diagnostic. *)
Theorem scalar_payload_gives_apology :
  forall (w : World) (question agent_name agent_version : string) (tr : trace)
         (data : json),
    decodes w question agent_name agent_version tr data ->
    (data = JNull \/ (exists b, data = JBool b) \/ exists n, data = JNum n) ->
    fst (_call_sub_agent w question agent_name agent_version tr)
    = Ret (JStr (unexpected_text agent_name)).
Proof.
  intros w question agent_name agent_version tr data Hd H.
  rewrite (call_decodes _ _ _ _ _ _ Hd).
  destruct H as [-> | [[b ->] | [n ->]]]; reflexivity.
Qed.

Lemma scalar_payload_gives_apology_witness :
  fst (_call_sub_agent (Demo.world Demo.endpoint 200 JNull)
                       "How did we do?" "ContosoOpsAgent" "1" [])
  = Ret (JStr (unexpected_text "ContosoOpsAgent")).
Proof.
  apply (scalar_payload_gives_apology
           (Demo.world Demo.endpoint 200 JNull)
           "How did we do?" "ContosoOpsAgent" "1" [] JNull).
  - split; [discriminate|].
    exists "t0", {| status_code := 200; json_body := Ret JNull |}.
    repeat split.
  - now left.
Defined.

Section Lengths.

Lemma length_append (a b : string) :
  String.length (a ++ b) = String.length a + String.length b.
Proof.
  induction a as [|c a IH]; simpl; [reflexivity | now rewrite IH].
Qed.

End Lengths.

(** X10. An object that has none of the keys output_text, output and
    choices is answered with the diagnostic, which names the agent and
    is never longer than the agent name plus 356 characters, however
    large the payload. *)
Theorem unknown_object_gives_bounded_diagnostic :
  forall (w : World) (question agent_name agent_version : string) (tr : trace)
         (fields : list (string * json)),
    decodes w question agent_name agent_version tr (JObj fields) ->
    lookup "output_text" fields = None ->
    lookup "output" fields = None ->
    lookup "choices" fields = None ->
    fst (_call_sub_agent w question agent_name agent_version tr)
    = Ret (JStr (unparsable agent_name (JObj fields)))
    /\ mentions (unparsable agent_name (JObj fields)) agent_name
    /\ String.length (unparsable agent_name (JObj fields))
       <= String.length agent_name + 356.
Proof.
  intros w question agent_name agent_version tr fields Hd H1 H2 H3.
  repeat split.
  - rewrite (call_decodes _ _ _ _ _ _ Hd).
    unfold parse_response, parse_from_output, format1, format2, format3.
    simpl. rewrite H1. simpl. rewrite H2. simpl. rewrite H3. reflexivity.
  - apply mentions_intro.
  - unfold unparsable. rewrite !length_append.
    pose proof (slice_to_length 300 (py_str (JObj fields))) as Hl.
    simpl String.length at 1 3. lia.
Qed.

Lemma unknown_object_gives_bounded_diagnostic_witness :
  fst (_call_sub_agent
         (Demo.world Demo.endpoint 200 (JObj [("result", JArr [JNum 5])]))
         "How did we do?" "ContosoOpsAgent" "1" [])
  = Ret (JStr (unparsable "ContosoOpsAgent" (JObj [("result", JArr [JNum 5])]))).
Proof.
  refine (proj1 (unknown_object_gives_bounded_diagnostic
           (Demo.world Demo.endpoint 200 (JObj [("result", JArr [JNum 5])]))
           "How did we do?" "ContosoOpsAgent" "1" []
           [("result", JArr [JNum 5])] _ eq_refl eq_refl eq_refl)).
  split; [discriminate|].
  exists "t0", {| status_code := 200;
                  json_body := Ret (JObj [("result", JArr [JNum 5])]) |}.
  repeat split.
Defined.

(** * Further properties of the graph *)

(** X11. A reply of the chat model that requests no tool ends the turn
    in that round: the state gains this one assistant message, its text
    is the answer, and no remote call is made. *)
Theorem direct_reply_ends_turn :
  forall (w : World) (llm : list message -> pyres (string * list tool_call))
         (st : state) (answer : string) (fuel : nat) (tr : trace),
    llm (SystemMessage SYSTEM_PROMPT :: st) = Ret (answer, []) ->
    run_graph w llm (S fuel) st tr
    = (Finished (st ++ [AIMessage answer []])%list, tr)
    /\ final_answer (st ++ [AIMessage answer []])%list = Some answer.
Proof.
  intros w llm st answer fuel tr Hl. split.
  - simpl. unfold llm_call. rewrite Hl. simpl.
    unfold should_continue. rewrite last_message_snoc. reflexivity.
  - apply final_answer_snoc.
Qed.

Lemma direct_reply_ends_turn_witness :
  run_graph Demo.no_credential Samples.greeting_llm 1 [HumanMessage "Hi"] []
  = (Finished ([HumanMessage "Hi"]
                 ++ [AIMessage "Hello! I can help with operations and menu questions." []])%list,
     [])
  /\ final_answer ([HumanMessage "Hi"]
                     ++ [AIMessage "Hello! I can help with operations and menu questions." []])%list
     = Some "Hello! I can help with operations and menu questions.".
Proof.
  apply (direct_reply_ends_turn Demo.no_credential Samples.greeting_llm
                                [HumanMessage "Hi"]).
  reflexivity.
Defined.

(** X12. A finished run only adds to the state, and what it adds is a
    sequence of rounds: every assistant message that requests tool calls
    is followed by exactly one tool message per call, carrying the ids
    in the order of the calls, and the last message is an assistant
    message that requests none. *)
Theorem finished_run_adds_rounds :
  forall (w : World) (llm : list message -> pyres (string * list tool_call))
         (fuel : nat) (st0 final : state) (tr0 trf : trace),
    run_graph w llm fuel st0 tr0 = (Finished final, trf) ->
    exists added, final = (st0 ++ added)%list /\ rounds added.
Proof.
  intros w llm fuel. induction fuel as [|fuel IH];
    intros st0 final tr0 trf; simpl; [discriminate|].
  unfold llm_call.
  destruct (llm (SystemMessage SYSTEM_PROMPT :: st0)) as [[content calls]|e];
    simpl; [|discriminate].
  unfold should_continue. rewrite last_message_snoc. simpl.
  destruct calls as [|tc calls].
  - intros H. inversion H. exists [AIMessage content []].
    split; [reflexivity | constructor].
  - rewrite tool_node_dispatch.
    destruct (run_tool_calls w (tc :: calls) [] tr0) as [[results|e] tr1]
      eqn:Hrun; [|discriminate].
    intros H. apply IH in H as [added [Hf Hr]].
    destruct (run_tool_calls_ids w (tc :: calls) [] tr0 results tr1 Hrun)
      as [new [Hn Hids]].
    simpl in Hn. subst new.
    exists (AIMessage content (tc :: calls) :: results ++ added)%list. split.
    + rewrite Hf, <- !app_assoc. reflexivity.
    + apply rounds_tools; [discriminate | exact Hids | exact Hr].
Qed.

Lemma finished_run_adds_rounds_witness :
  exists added,
    [HumanMessage "How are Southwest stores performing?";
     AIMessage "" [{| tc_name := "query_ops_agent";
                      tc_args := "How are Southwest stores performing?";
                      tc_id := "call_1" |}];
     ToolMessage "R" "call_1";
     AIMessage "Here is what the Ops Agent reports." []]
    = ([HumanMessage "How are Southwest stores performing?"] ++ added)%list
    /\ rounds added.
Proof.
  apply (finished_run_adds_rounds
           (Demo.world Demo.endpoint 200 (JObj [("output_text", JStr "R")]))
           Demo.commenting_llm 25
           [HumanMessage "How are Southwest stores performing?"] _ []
           (snd (run_graph
                   (Demo.world Demo.endpoint 200 (JObj [("output_text", JStr "R")]))
                   Demo.commenting_llm 25
                   [HumanMessage "How are Southwest stores performing?"] []))).
  reflexivity.
Defined.

Section Dispatch.

Variable w : World.


Lemma tools_by_name_known (name : string) (t : string -> io json) :
  _tools_by_name w name = Ret t ->
  t = query_ops_agent w \/ t = query_menu_agent w.
Proof.
  unfold _tools_by_name, _tools. simpl.
  destruct (name =? "query_ops_agent").
  - intros H. inversion H. now left.
  - destruct (name =? "query_menu_agent"); [|discriminate].
    intros H. inversion H. now right.
Qed.


Lemma call_ret_posts (question name version : string) (tr tr' : trace)
  (v : json) :
  FOUNDRY_PROJECT_ENDPOINT w <> "" ->
  _call_sub_agent w question name version tr = (Ret v, tr') ->
  length (posted tr') = S (length (posted tr)).
Proof.
  intros Hc. unfold _call_sub_agent.
  apply String.eqb_neq in Hc. rewrite Hc.
  destruct (get_token w tr token_scope) as [token|e]; [|discriminate].
  destruct (try_body w name _ _); intros H; inversion H;
    rewrite !posted_app, !length_app; simpl; lia.
Qed.

Lemma run_tool_calls_posts (calls : list tool_call) :
  FOUNDRY_PROJECT_ENDPOINT w <> "" ->
  forall (result msgs : list message) (tr tr' : trace),
    run_tool_calls w calls result tr = (Ret msgs, tr') ->
    length (posted tr') = length (posted tr) + length calls.
Proof.
  intros Hc. induction calls as [|tc calls IH];
    intros result msgs tr tr'; simpl.
  - intros H. inversion H. lia.
  - destruct (_tools_by_name w (tc_name tc)) as [t|e] eqn:Ht; [|discriminate].
    destruct (t (tc_args tc) tr) as [[v|e] tr1] eqn:Hcall; [|discriminate].
    intros H. apply IH in H. rewrite H.
    assert (Hp : length (posted tr1) = S (length (posted tr))).
    { destruct (tools_by_name_known _ _ Ht) as [-> | ->];
        [unfold query_ops_agent in Hcall | unfold query_menu_agent in Hcall];
        rewrite tool_body_result in Hcall;
        now apply call_ret_posts in Hcall. }
    lia.
Qed.

Lemma tool_messages_of_ids (results : list message) :
  forall calls : list tool_call,
    map tool_result_id results = map (fun tc => Some (tc_id tc)) calls ->
    length (filter is_tool_message results) = length calls.
Proof.
  induction results as [|m results IH]; intros [|tc calls]; simpl;
    try discriminate; [reflexivity|].
  intros H. injection H as Hm Hrest.
  destruct m; try discriminate. simpl. now rewrite (IH calls Hrest).
Qed.

End Dispatch.



(** X14. The loop has no way out but a reply without tool calls: with a
    chat model that requests a registered tool in every reply, and a
    credential that gives tokens, the run neither finishes nor fails; it
    goes on until the step budget is used up, whatever the budget. *)
Theorem insisting_model_uses_up_budget :
  forall (w : World) (llm : list message -> pyres (string * list tool_call)),
    (forall tr0, exists token, get_token w tr0 token_scope = Ret token) ->
    (forall messages, exists content calls,
        llm messages = Ret (content, calls)
        /\ calls <> [] /\ Forall registered calls) ->
    forall (fuel : nat) (st : state) (tr : trace),
    exists tr', run_graph w llm fuel st tr = (OutOfSteps, tr').
Proof.
  intros w llm Htok Hllm fuel. induction fuel as [|fuel IH]; intros st tr.
  - now eexists.
  - destruct (Hllm (SystemMessage SYSTEM_PROMPT :: st))
      as [content [calls [Hl [Hne Hreg]]]].
    destruct (run_tool_calls_returns w calls Htok Hreg [] tr)
      as [results [tr1 Hrun]].
    rewrite (run_graph_tools w llm fuel st tr tr1 content calls results Hl Hne).
    + apply IH.
    + now rewrite tool_node_dispatch.
Qed.

Lemma insisting_model_uses_up_budget_witness :
  exists tr',
    run_graph (Demo.world Demo.endpoint 200 (JObj [("output_text", JStr "ok")]))
              Samples.insisting_llm 25
              [HumanMessage "How are Southwest stores performing?"] []
    = (OutOfSteps, tr').
Proof.
  apply (insisting_model_uses_up_budget
           (Demo.world Demo.endpoint 200 (JObj [("output_text", JStr "ok")]))
           Samples.insisting_llm).
  - intros tr0. exists "t0". reflexivity.
  - intros messages. eexists _, _. split; [reflexivity|]. split; [discriminate|].
    apply Forall_cons; [now left | apply Forall_nil].
Defined.

(** X15. With a configured endpoint every tool message of a finished run
    has cost exactly one request: the number of requests posted during
    the run equals the number of tool messages the run added to the
    state. *)
Theorem one_request_per_tool_message :
  forall (w : World) (llm : list message -> pyres (string * list tool_call))
         (fuel : nat) (st0 final : state) (tr0 trf : trace),
    FOUNDRY_PROJECT_ENDPOINT w <> "" ->
    run_graph w llm fuel st0 tr0 = (Finished final, trf) ->
    length (posted trf) + length (filter is_tool_message st0)
    = length (posted tr0) + length (filter is_tool_message final).
Proof.
  intros w llm fuel st0 final tr0 trf Hc. revert st0 final tr0 trf.
  induction fuel as [|fuel IH]; intros st0 final tr0 trf; simpl;
    [discriminate|].
  unfold llm_call.
  destruct (llm (SystemMessage SYSTEM_PROMPT :: st0)) as [[content calls]|e];
    simpl; [|discriminate].
  unfold should_continue. rewrite last_message_snoc. simpl.
  destruct calls as [|tc calls].
  - intros H. inversion H. subst.
    rewrite filter_app, length_app. simpl. lia.
  - rewrite tool_node_dispatch.
    destruct (run_tool_calls w (tc :: calls) [] tr0) as [[results|e] tr1]
      eqn:Hrun; [|discriminate].
    intros H. apply IH in H.
    pose proof (run_tool_calls_posts w (tc :: calls) Hc [] results tr0 tr1 Hrun)
      as Hposts.
    destruct (run_tool_calls_ids w (tc :: calls) [] tr0 results tr1 Hrun)
      as [new [Hn Hids]].
    simpl in Hn. subst new.
    apply tool_messages_of_ids in Hids.
    rewrite !filter_app, !length_app in H. simpl in H. simpl in Hposts.
    simpl in Hids. lia.
Qed.

Lemma one_request_per_tool_message_witness :
  let w := Demo.world Demo.endpoint 200 (JObj [("output_text", JStr "ok")]) in
  let st0 := [HumanMessage "Sales and a new burger?"] in
  length (posted (snd (run_graph w Demo.parallel_llm 25 st0 [])))
  + length (filter is_tool_message st0)
  = length (posted [])
    + length (filter is_tool_message
                [HumanMessage "Sales and a new burger?";
                 AIMessage "" [{| tc_name := "query_ops_agent";
                                  tc_args := "Sales and a new burger?";
                                  tc_id := "call_1" |};
                               {| tc_name := "query_menu_agent";
                                  tc_args := "Sales and a new burger?";
                                  tc_id := "call_2" |}];
                 ToolMessage "ok" "call_1"; ToolMessage "ok" "call_2";
                 AIMessage "Done." []]).
Proof.
  apply (one_request_per_tool_message
           (Demo.world Demo.endpoint 200 (JObj [("output_text", JStr "ok")]))
           Demo.parallel_llm 25 [HumanMessage "Sales and a new burger?"]).
  - discriminate.
  - reflexivity.
Defined.

(** * The lazily created chat model *)

Section LazyLlmFacts.

Import LazyLlm.

Variable LLM : Type.
Variable construct : nat -> pyres LLM.

Lemma cached_store_is_fixed (llm : LLM) (a n : nat) :
  after_calls LLM construct n {| _llm_with_tools := Some llm; attempts := a |}
  = {| _llm_with_tools := Some llm; attempts := a |}.
Proof. induction n as [|n IH]; simpl; [reflexivity | exact IH]. Qed.

End LazyLlmFacts.

(** X16. The chat model with its tools is constructed at most once per
    process: after a call of [get_llm_with_tools] that returns, any
    number of further calls return the same object and construct
    nothing.  A construction that raises leaves the cache empty, so that
    the next call constructs again. *)
Theorem llm_constructed_once :
  forall (LLM : Type) (construct : nat -> pyres LLM) (s : LazyLlm.store LLM),
    (forall llm s',
        LazyLlm.get_llm_with_tools LLM construct s = (Ret llm, s') ->
        LazyLlm._llm_with_tools LLM s' = Some llm
        /\ forall n,
             LazyLlm.after_calls LLM construct n s' = s'
             /\ LazyLlm.get_llm_with_tools
                  LLM construct (LazyLlm.after_calls LLM construct n s')
                = (Ret llm, s'))
    /\ (forall e s',
           LazyLlm.get_llm_with_tools LLM construct s = (Raise e, s') ->
           LazyLlm._llm_with_tools LLM s' = None
           /\ LazyLlm.attempts LLM s' = S (LazyLlm.attempts LLM s)
           /\ LazyLlm.get_llm_with_tools LLM construct s'
              = match construct (S (LazyLlm.attempts LLM s)) with
                | Ret llm =>
                    (Ret llm,
                     {| LazyLlm._llm_with_tools := Some llm;
                        LazyLlm.attempts := S (S (LazyLlm.attempts LLM s)) |})
                | Raise e' =>
                    (Raise e',
                     {| LazyLlm._llm_with_tools := None;
                        LazyLlm.attempts := S (S (LazyLlm.attempts LLM s)) |})
                end).
Proof.
  intros LLM construct [cache a]. split.
  - intros llm s'. unfold LazyLlm.get_llm_with_tools. simpl.
    assert (Hfix : forall x b,
               s' = {| LazyLlm._llm_with_tools := Some x; LazyLlm.attempts := b |} ->
               llm = x ->
               LazyLlm._llm_with_tools LLM s' = Some llm
               /\ forall n,
                    LazyLlm.after_calls LLM construct n s' = s'
                    /\ LazyLlm.get_llm_with_tools
                         LLM construct (LazyLlm.after_calls LLM construct n s')
                       = (Ret llm, s')).
    { intros x b -> ->. split; [reflexivity|]. intros n.
      rewrite cached_store_is_fixed. now split. }
    destruct cache as [x|].
    + intros H. inversion H. subst. now apply (Hfix llm a).
    + destruct (construct a) as [x|e]; intros H; inversion H.
      subst. now apply (Hfix llm (S a)).
  - intros e s'. unfold LazyLlm.get_llm_with_tools at 1. simpl.
    destruct cache as [x|]; [discriminate|].
    destruct (construct a) as [x|e0]; intros H; inversion H. subst.
    repeat split.
Qed.

Lemma llm_constructed_once_witness :
  LazyLlm.get_llm_with_tools nat Samples.flaky_construct
    (LazyLlm.after_calls nat Samples.flaky_construct 5
       {| LazyLlm._llm_with_tools := Some 42; LazyLlm.attempts := 2 |})
  = (Ret 42, {| LazyLlm._llm_with_tools := Some 42; LazyLlm.attempts := 2 |}).
Proof.
  refine (proj2 (proj2 (proj1 (llm_constructed_once
           nat Samples.flaky_construct
           {| LazyLlm._llm_with_tools := None; LazyLlm.attempts := 1 |})
           42 {| LazyLlm._llm_with_tools := Some 42; LazyLlm.attempts := 2 |}
           eq_refl) 5)).
Defined.

(** * Start-up *)

Section EnvironFacts.

Import Environ.

Lemma is_set_some (v : option string) :
  is_set v = true -> exists c s, v = Some (String c s).
Proof.
  destruct v as [[|c s]|]; simpl; try discriminate. now exists c, s.
Qed.

Lemma get_set (d : environ) (k v k' : string) :
  get (set d k v) k' = if k' =? k then Some v else get d k'.
Proof.
  induction d as [|[k0 v0] d IH]; simpl.
  - reflexivity.
  - destruct (k =? k0) eqn:Hk; simpl.
    + apply String.eqb_eq in Hk. subst k0. now destruct (k' =? k).
    + rewrite IH. destruct (k' =? k0) eqn:Hk0; [|reflexivity].
      apply String.eqb_eq in Hk0. subst k0.
      rewrite String.eqb_sym in Hk. now rewrite Hk.
Qed.

Lemma get_app (a b : environ) (k : string) :
  get (a ++ b)%list k = match get a k with Some v => Some v | None => get b k end.
Proof.
  induction a as [|[k0 v0] a IH]; simpl; [reflexivity|].
  now destruct (k =? k0).
Qed.

Lemma get_update (other : environ) :
  forall (d : environ) (k : string),
    get (update d other) k
    = match get (rev other) k with
      | Some v => Some v
      | None => get d k
      end.
Proof.
  unfold update.
  induction other as [|[k0 v0] other IH]; intros d k; simpl; [reflexivity|].
  rewrite IH, get_app, get_set. simpl.
  destruct (get (rev other) k); [reflexivity|].
  now destruct (k =? k0).
Qed.

End EnvironFacts.

(** X17. The orchestrator refuses to start, with [ValueError], exactly
    when neither AZURE_OPENAI_ENDPOINT nor AZURE_AI_ENDPOINT holds a
    non-empty value.  The project endpoint is not needed to start: when
    FOUNDRY_PROJECT_ENDPOINT is absent or empty the process starts, and
    every call of the client then returns the configuration text
    without any remote call. *)
Theorem orchestrator_starts_without_project_endpoint :
  forall env : Environ.environ,
    (Startup.load env = Raise ValueError
     <-> Environ.is_set (Environ.get env "AZURE_OPENAI_ENDPOINT") = false
         /\ Environ.is_set (Environ.get env "AZURE_AI_ENDPOINT") = false)
    /\ forall s get_token post question agent_name agent_version tr,
         Startup.load env = Ret s ->
         Environ.is_set (Environ.get env "FOUNDRY_PROJECT_ENDPOINT") = false ->
         _call_sub_agent (Startup.world s get_token post)
                         question agent_name agent_version tr
         = (Ret (JStr (not_configured agent_name)), tr).
Proof.
  intros env. split.
  - unfold Startup.load, Environ.py_or.
    destruct (Environ.get env "AZURE_OPENAI_ENDPOINT") as [[|c s]|]; simpl;
      destruct (Environ.get env "AZURE_AI_ENDPOINT") as [[|c' s']|]; simpl;
      split; intros H; try discriminate; try (now split);
      destruct H; discriminate.
  - intros s get_token post question agent_name agent_version tr Hl Hp.
    apply call_unconfigured. simpl.
    unfold Startup.load in Hl.
    destruct (Environ.py_or _ _) as [[|c e]|]; try discriminate.
    inversion Hl. simpl. unfold Environ.get_default.
    destruct (Environ.get env "FOUNDRY_PROJECT_ENDPOINT") as [[|c' e']|];
      simpl in Hp; try discriminate; reflexivity.
Qed.

Lemma orchestrator_starts_without_project_endpoint_witness :
  _call_sub_agent (Startup.world Samples.bare_settings (fun _ _ => Ret "t0")
                                 (fun _ _ => Raise RequestError))
                  "How did we do?" "ContosoOpsAgent" "1" []
  = (Ret (JStr (not_configured "ContosoOpsAgent")), []).
Proof.
  apply (proj2 (orchestrator_starts_without_project_endpoint Samples.bare_env)
               Samples.bare_settings (fun _ _ => Ret "t0")
               (fun _ _ => Raise RequestError)
               "How did we do?" "ContosoOpsAgent" "1" []).
  - reflexivity.
  - reflexivity.
Defined.

(** * The ops agent *)

Section SubstringFacts.

Lemma prefix_spec (k : string) :
  forall s, prefix k s = true <-> exists rest, s = k ++ rest.
Proof.
  induction k as [|a k IH]; intros s.
  - split; [intros _; now exists s | intros _; now destruct s].
  - destruct s as [|b s]; simpl.
    + split; [discriminate | intros [rest H]; discriminate].
    + destruct (ascii_dec a b) as [->|Hne].
      * rewrite IH. split; intros [rest H]; exists rest.
        -- now rewrite H.
        -- now injection H.
      * split; [discriminate|]. intros [rest H]. injection H as H _.
        now destruct Hne.
Qed.

Lemma contains_spec (k s : string) : contains k s = true <-> mentions s k.
Proof.
  unfold mentions. induction s as [|c s IH].
  - change (contains k "") with (prefix k "" || false).
    rewrite orb_false_r, prefix_spec. split.
    + intros [rest H]. exists "", rest. exact H.
    + intros [before [after H]]. destruct before; [|discriminate].
      now exists after.
  - change (contains k (String c s))
      with (prefix k (String c s) || contains k s).
    rewrite orb_true_iff, prefix_spec, IH. split.
    + intros [[rest H] | [before [after H]]].
      * exists "", rest. exact H.
      * exists (String c before), after. simpl. now rewrite H.
    + intros [[|b before] [after H]].
      * left. now exists after.
      * right. injection H as _ H. now exists before, after.
Qed.

End SubstringFacts.

(** X18. The ops agent answers every turn and never raises: one
    assistant message is appended to the messages it was given, and the
    reasoning steps of the state are replaced.  When creating or
    invoking the chat model raises [e], the message is the apology
    followed by [str(e)] and the only step is the error marker. *)
Theorem ops_agent_always_replies :
  forall (llm : list message -> OpsAgent.llm_outcome)
         (state : OpsAgent.AgentState),
  exists content steps,
    OpsAgent.invoke llm state
    = Some {| OpsAgent.messages :=
                (OpsAgent.messages state ++ [AIMessage content []])%list;
              OpsAgent.reasoning_steps := steps |}
    /\ (forall str_e,
           llm (SystemMessage OpsAgent.SYSTEM_PROMPT :: OpsAgent.messages state)
           = OpsAgent.fails str_e ->
           content = "Sorry, I encountered an error: " ++ str_e
           /\ steps = ["Error occurred"])
    /\ (forall reply,
           llm (SystemMessage OpsAgent.SYSTEM_PROMPT :: OpsAgent.messages state)
           = OpsAgent.replies reply ->
           content = reply /\ steps = OpsAgent.reasoning_of reply).
Proof.
  intros llm state.
  unfold OpsAgent.invoke, OpsAgent.apply_update, OpsAgent.reasoning_node.
  destruct (llm (SystemMessage OpsAgent.SYSTEM_PROMPT :: OpsAgent.messages state))
    as [reply|str_e]; simpl.
  - exists reply, (OpsAgent.reasoning_of reply). repeat split.
    + discriminate.
    + discriminate.
    + now inversion H.
    + now inversion H.
  - exists ("Sorry, I encountered an error: " ++ str_e), ["Error occurred"].
    repeat split.
    + now inversion H.
    + discriminate.
    + discriminate.
Qed.

(** X19. Each reasoning step is reported exactly when its keyword
    occurs somewhere in the reply, with this spelling and case:
    Understanding, Analyzing, Response.  No step is reported twice. *)
Theorem reasoning_steps_follow_keywords :
  forall content : string,
    (In OpsAgent.step_understanding (OpsAgent.reasoning_of content)
     <-> mentions content "Understanding")
    /\ (In OpsAgent.step_analyzing (OpsAgent.reasoning_of content)
        <-> mentions content "Analyzing")
    /\ (In OpsAgent.step_response (OpsAgent.reasoning_of content)
        <-> mentions content "Response")
    /\ NoDup (OpsAgent.reasoning_of content).
Proof.
  intros content. unfold OpsAgent.reasoning_of.
  rewrite <- !contains_spec.
  unfold OpsAgent.step_understanding, OpsAgent.step_analyzing,
    OpsAgent.step_response.
  destruct (contains "Understanding" content),
           (contains "Analyzing" content),
           (contains "Response" content); simpl;
    (split; [|split; [|split]]);
    try (split; intros H;
         repeat (destruct H as [H | H]);
         solve [reflexivity | discriminate H | contradiction | auto]);
    repeat constructor; simpl; intros H;
    repeat (destruct H as [H | H]);
    solve [discriminate H | contradiction].
Qed.

(** * The deployment script *)

(** X20. The environment handed to a hosted agent holds the four base
    variables, and an extra variable takes effect over a base variable
    of the same name: a key is looked up in the extra variables first,
    the last entry winning, and in the base variables otherwise. *)
Theorem env_vars_lookup :
  forall (g : Deploy.globals) (other : Environ.environ) (k : string),
    Environ.get (Deploy.env_vars g (Some other)) k
    = match Environ.get (rev other) k with
      | Some v => Some v
      | None => Environ.get (Deploy.base_env g) k
      end
    /\ Environ.get (Deploy.env_vars g None) k
       = Environ.get (Deploy.base_env g) k
    /\ Environ.get (Deploy.base_env g) "AZURE_AI_PROJECT_ENDPOINT"
       = Some (Deploy.ENDPOINT g)
    /\ Environ.get (Deploy.base_env g) "FOUNDRY_PROJECT_ENDPOINT"
       = Some (Deploy.ENDPOINT g)
    /\ Environ.get (Deploy.base_env g) "AZURE_AI_ENDPOINT"
       = Some (Deploy.AI_ENDPOINT g)
    /\ Environ.get (Deploy.base_env g) "AZURE_AI_MODEL_DEPLOYMENT_NAME"
       = Some (Deploy.MODEL_DEPLOYMENT g).
Proof.
  intros g other k. repeat split.
  unfold Deploy.env_vars. destruct other as [|kv more]; [reflexivity|].
  apply get_update.
Qed.

Section ScriptFacts.

Import Deploy.

Lemma start_nonempty (env : Environ.environ) (g : globals) :
  start env = Some g ->
  ENDPOINT g <> "" /\ ACR g <> "" /\ AI_ENDPOINT g <> "".
Proof.
  unfold start.
  destruct (Environ.get env "FOUNDRY_PROJECT_ENDPOINT") as [[|a e]|];
    try discriminate;
    destruct (Environ.get env "FOUNDRY_ACR") as [[|b r]|]; try discriminate;
    destruct (Environ.get env "AI_ENDPOINT") as [[|c i]|]; try discriminate.
  intros H. inversion H. simpl. repeat split; discriminate.
Qed.

(** The run of [main] written out: the three creation calls, each seeing
    the calls before it, and the status they decide. *)
Lemma main_unfolded (g : globals) (c : client) :
  let d1 := definition_of g (ACR g ++ "/contoso-ops-agent:v1") None in
  let d2 := definition_of g (ACR g ++ "/contoso-menu-agent:v1") None in
  let r1 := create_version c [] "ContosoOpsAgent" d1 in
  let r2 := create_version c [CreateVersion "ContosoOpsAgent" d1]
                           "ContosoMenuAgent" d2 in
  let version_of (r : pyres agent) :=
    match r with Ret a => version a | Raise _ => "1" end in
  let d3 := definition_of g (ACR g ++ "/contoso-orchestrator-agent:v1")
              (Some [("OPS_AGENT_VERSION", version_of r1);
                     ("MENU_AGENT_VERSION", version_of r2)]) in
  let r3 := create_version c [CreateVersion "ContosoOpsAgent" d1;
                              CreateVersion "ContosoMenuAgent" d2]
                           "ContosoOrchestratorAgent" d3 in
  main g c []
  = (match r1, r2, r3 with
     | Ret _, Ret _, Ret _ => completed
     | _, _, _ => exited 1
     end,
     [CreateVersion "ContosoOpsAgent" d1; CreateVersion "ContosoMenuAgent" d2;
      CreateVersion "ContosoOrchestratorAgent" d3; ListAgents]).
Proof.
  cbv zeta. unfold main, deploy_agent. simpl.
  destruct (create_version c [] "ContosoOpsAgent" _) as [a1|e1]; simpl;
    destruct (create_version c [_] "ContosoMenuAgent" _) as [a2|e2]; simpl;
    destruct (create_version c [_; _] "ContosoOrchestratorAgent" _)
      as [a3|e3]; simpl;
    destruct (list_agents c _); reflexivity.
Qed.

End ScriptFacts.

(** X21. Once the three required variables are set the script attempts
    all three deployments, in the order ops, menu, orchestrator, whether
    or not earlier ones fail, and then lists the agents.  The
    orchestrator is given the versions of the two specialists just
    created, or 1 for a specialist whose creation failed. *)
Theorem script_deploys_all_three :
  forall (env : Environ.environ) (g : Deploy.globals) (c : Deploy.client),
    Deploy.start env = Some g ->
    let d_ops :=
      Deploy.definition_of g (Deploy.ACR g ++ "/contoso-ops-agent:v1") None in
    let d_menu :=
      Deploy.definition_of g (Deploy.ACR g ++ "/contoso-menu-agent:v1") None in
    let c_ops := Deploy.CreateVersion "ContosoOpsAgent" d_ops in
    let c_menu := Deploy.CreateVersion "ContosoMenuAgent" d_menu in
    let version_of (r : pyres Deploy.agent) :=
      match r with Ret a => Deploy.version a | Raise _ => "1" end in
    let d_orchestrator :=
      Deploy.definition_of
        g (Deploy.ACR g ++ "/contoso-orchestrator-agent:v1")
        (Some [("OPS_AGENT_VERSION",
                version_of (Deploy.create_version c [] "ContosoOpsAgent" d_ops));
               ("MENU_AGENT_VERSION",
                version_of (Deploy.create_version c [c_ops]
                                                  "ContosoMenuAgent" d_menu))]) in
    snd (Deploy.script env c)
    = [c_ops; c_menu;
       Deploy.CreateVersion "ContosoOrchestratorAgent" d_orchestrator;
       Deploy.ListAgents].
Proof.
  intros env g c Hs. simpl. unfold Deploy.script. rewrite Hs.
  now rewrite main_unfolded.
Qed.

Lemma script_deploys_all_three_witness :
  snd (Deploy.script Samples.deploy_env Samples.picky_client)
  = [Deploy.CreateVersion "ContosoOpsAgent"
       (Deploy.definition_of Samples.deploy_globals
          "contoso.azurecr.io/contoso-ops-agent:v1" None);
     Deploy.CreateVersion "ContosoMenuAgent"
       (Deploy.definition_of Samples.deploy_globals
          "contoso.azurecr.io/contoso-menu-agent:v1" None);
     Deploy.CreateVersion "ContosoOrchestratorAgent"
       (Deploy.definition_of Samples.deploy_globals
          "contoso.azurecr.io/contoso-orchestrator-agent:v1"
          (Some [("OPS_AGENT_VERSION", "1"); ("MENU_AGENT_VERSION", "3")]));
     Deploy.ListAgents].
Proof.
  apply (script_deploys_all_three Samples.deploy_env Samples.deploy_globals
                                  Samples.picky_client).
  reflexivity.
Defined.

(** X22. The script ends normally only when the three required
    variables are set and every one of its three creation calls
    returned; in every other case it exits with status 1.  With a
    variable missing it exits before any call is made.  A failure of the
    final listing does not change the status. *)
Theorem script_exit_status :
  forall (env : Environ.environ) (c : Deploy.client),
    (fst (Deploy.script env c) = Deploy.completed
     \/ fst (Deploy.script env c) = Deploy.exited 1)
    /\ (Deploy.start env = None -> Deploy.script env c = (Deploy.exited 1, []))
    /\ (fst (Deploy.script env c) = Deploy.completed
        <-> Deploy.start env <> None
            /\ forall before name defn after,
                 snd (Deploy.script env c)
                 = (before ++ Deploy.CreateVersion name defn :: after)%list ->
                 exists a, Deploy.create_version c before name defn = Ret a).
Proof.
  intros env c. unfold Deploy.script.
  destruct (Deploy.start env) as [g|]; simpl.
  2:{ repeat split; try (now right); try discriminate.
      intros [H _]. now destruct H. }
  rewrite main_unfolded. cbv zeta. cbn [fst snd].
  set (d1 := Deploy.definition_of g (Deploy.ACR g ++ "/contoso-ops-agent:v1") None).
  set (d2 := Deploy.definition_of g (Deploy.ACR g ++ "/contoso-menu-agent:v1") None).
  set (r1 := Deploy.create_version c [] "ContosoOpsAgent" d1).
  set (r2 := Deploy.create_version c [Deploy.CreateVersion "ContosoOpsAgent" d1]
                                   "ContosoMenuAgent" d2).
  match goal with
  | |- context [Deploy.create_version c ?calls "ContosoOrchestratorAgent" ?d] =>
      set (d3 := d); set (r3 := Deploy.create_version c calls _ d3)
  end.
  split; [destruct r1, r2, r3; auto|].
  split; [discriminate|]. split.
  - intros Hc. split; [discriminate|].
    intros before name defn after Heq.
    destruct before as [|x1 [|x2 [|x3 [|x4 before]]]];
      simpl in Heq; inversion Heq; subst.
    + fold r1. destruct r1; [eauto | discriminate].
    + fold r2. destruct r1, r2; try discriminate; eauto.
    + fold r3. destruct r1, r2, r3; try discriminate; eauto.
    + destruct before; discriminate.
  - intros [_ Hall].
    destruct (Hall [] "ContosoOpsAgent" d1
                   [Deploy.CreateVersion "ContosoMenuAgent" d2;
                    Deploy.CreateVersion "ContosoOrchestratorAgent" d3;
                    Deploy.ListAgents] eq_refl) as [a1 Ha1].
    destruct (Hall [Deploy.CreateVersion "ContosoOpsAgent" d1]
                   "ContosoMenuAgent" d2
                   [Deploy.CreateVersion "ContosoOrchestratorAgent" d3;
                    Deploy.ListAgents] eq_refl) as [a2 Ha2].
    destruct (Hall [Deploy.CreateVersion "ContosoOpsAgent" d1;
                    Deploy.CreateVersion "ContosoMenuAgent" d2]
                   "ContosoOrchestratorAgent" d3
                   [Deploy.ListAgents] eq_refl) as [a3 Ha3].
    fold r1 in Ha1. fold r2 in Ha2. fold r3 in Ha3.
    now rewrite Ha1, Ha2, Ha3.
Qed.

Lemma script_exit_status_witness :
  Deploy.script [("FOUNDRY_PROJECT_ENDPOINT", "https://contoso.example/api/projects/p")]
                Samples.obliging_client
  = (Deploy.exited 1, []).
Proof.
  apply (proj1 (proj2 (script_exit_status
           [("FOUNDRY_PROJECT_ENDPOINT", "https://contoso.example/api/projects/p")]
           Samples.obliging_client))).
  reflexivity.
Defined.

(** X23. The environment the script gives to each hosted agent lets that
    agent start: the orchestrator and the ops agent find their model
    endpoint, the menu agent its project endpoint.  The orchestrator in
    particular starts with a non-empty project endpoint, with the
    versions the script passed, and with the default names, which are
    the names under which the script deployed the two specialists. *)
Theorem deployed_agents_start :
  forall (env : Environ.environ) (g : Deploy.globals) (vo vm : string),
    Deploy.start env = Some g ->
    let orchestrator_env :=
      Deploy.env_vars g (Some [("OPS_AGENT_VERSION", vo);
                               ("MENU_AGENT_VERSION", vm)]) in
    let specialist_env := Deploy.env_vars g None in
    (exists s,
        Startup.load orchestrator_env = Ret s
        /\ Startup.FOUNDRY_PROJECT_ENDPOINT s = Deploy.ENDPOINT g
        /\ Startup.FOUNDRY_PROJECT_ENDPOINT s <> ""
        /\ Startup.AZURE_OPENAI_ENDPOINT s = Deploy.AI_ENDPOINT g
        /\ Startup.MODEL_DEPLOYMENT s = Deploy.MODEL_DEPLOYMENT g
        /\ Startup.OPS_AGENT_NAME s = "ContosoOpsAgent"
        /\ Startup.OPS_AGENT_VERSION s = vo
        /\ Startup.MENU_AGENT_NAME s = "ContosoMenuAgent"
        /\ Startup.MENU_AGENT_VERSION s = vm)
    /\ (exists s,
           OpsAgent.load specialist_env = Ret s
           /\ OpsAgent.AZURE_OPENAI_ENDPOINT s = Deploy.AI_ENDPOINT g
           /\ OpsAgent.MODEL_DEPLOYMENT s = Deploy.MODEL_DEPLOYMENT g)
    /\ (exists s,
           MenuAgent.load specialist_env = Ret s
           /\ MenuAgent.PROJECT_ENDPOINT s = Deploy.ENDPOINT g).
Proof.
  intros env g vo vm Hs.
  destruct (start_nonempty env g Hs) as [He [_ Ha]].
  destruct g as [e r a m]. simpl in He, Ha.
  destruct e as [|ce e]; [congruence|].
  destruct a as [|ca a]; [congruence|].
  cbv zeta. repeat split.
  - eexists. split; [reflexivity|]. simpl. repeat split. discriminate.
  - eexists. repeat split.
  - eexists. repeat split.
Qed.

Lemma deployed_agents_start_witness :
  exists s,
    MenuAgent.load (Deploy.env_vars Samples.deploy_globals None) = Ret s
    /\ MenuAgent.PROJECT_ENDPOINT s
       = Deploy.ENDPOINT Samples.deploy_globals.
Proof.
  apply (proj2 (proj2 (deployed_agents_start
                         Samples.deploy_env Samples.deploy_globals "7" "7"
                         eq_refl))).
Defined.

Lemma tools_return_client_result_witness :
  exists s items,
    JStr "ok" = JStr s \/ JStr "ok" = JArr items.
Proof.
  apply (proj2 (proj2 (tools_return_client_result
                         (Demo.world Demo.endpoint 200
                                     (JObj [("output_text", JStr "ok")]))
                         "How did we do?" []))
               "ContosoOpsAgent" "1" (JStr "ok")
               [GetToken token_scope;
                Post (request_of (Demo.world Demo.endpoint 200
                                             (JObj [("output_text", JStr "ok")]))
                                 "How did we do?" "ContosoOpsAgent" "1" "t0")]).
  reflexivity.
Defined.

Lemma ops_agent_always_replies_witness :
  exists content steps,
    OpsAgent.invoke Samples.failing_ops_llm
                    {| OpsAgent.messages := [HumanMessage "How did we do?"];
                       OpsAgent.reasoning_steps := ["stale"] |}
    = Some {| OpsAgent.messages :=
                ([HumanMessage "How did we do?"] ++ [AIMessage content []])%list;
              OpsAgent.reasoning_steps := steps |}
    /\ content = "Sorry, I encountered an error: Connection error."
    /\ steps = ["Error occurred"].
Proof.
  destruct (ops_agent_always_replies
              Samples.failing_ops_llm
              {| OpsAgent.messages := [HumanMessage "How did we do?"];
                 OpsAgent.reasoning_steps := ["stale"] |})
    as [content [steps [H1 [H2 _]]]].
  exists content, steps. split; [exact H1|].
  apply (H2 "Connection error."). reflexivity.
Defined.

Lemma reasoning_steps_follow_keywords_witness :
  In OpsAgent.step_analyzing
     (OpsAgent.reasoning_of
        "Understanding: sales. Analyzing: Q3. Response: up 4%.").
Proof.
  apply (proj2 (proj1 (proj2 (reasoning_steps_follow_keywords
           "Understanding: sales. Analyzing: Q3. Response: up 4%.")))).
  exists "Understanding: sales. ", ": Q3. Response: up 4%.". reflexivity.
Defined.
